(** * ACP agent scraper: fetch, merge and ranking core

    A shallow embedding of [src/scraper.py] (with the records of
    [src/models.py]) and the properties of its retry loop, pagination
    walker, merge rules and ranking.

    Conventions of the embedding.
    - A parsed JSON document is a [value]; a JSON object (a Python [dict]
      with string keys) is a [gmap string value].
    - A Python float is a [pyfloat]: a double by its exact rational
      value, a negative zero, an infinity, or not-a-number.  The code
      converts to floats and compares them, it never does arithmetic on
      them; [double_of_Q] is the rounding of the conversions.
    - A Python [str] is the string of its UTF-8 bytes; [chars] gives its
      characters.
    - A raised exception is the [Raise] outcome of the [res] monad. *)

From Stdlib Require Import ZArith QArith Qabs String Ascii List Lia Lqa DecimalString.
From Stdlib Require Import Floats.SpecFloat.
From stdpp Require Import gmap strings list fin_maps sorting.

#[local] Set Warnings "-register-all".
#[local] Open Scope string_scope.
#[local] Open Scope Z_scope.

(** ** Floats

    The finite doubles are carried by their value, an exact rational; a
    rational written where a float is expected is that finite float.
    [NegZero] is the float -0.0, which compares equal to 0.0 and prints
    differently.  [Finite q] is a double when [q] is the value of one:
    the conversions below give no other, and no property relies on it. *)
Inductive pyfloat :=
  | Finite (q : Q)
  | NegZero
  | Infinite (negative : bool)
  | NaN.
Bind Scope Q_scope with pyfloat.
Coercion Finite : Q >-> pyfloat.

(** ** Values, exceptions and the error monad *)

Inductive value :=
  | VNone
  | VBool (b : bool)
  | VInt (z : Z)
  | VFloat (f : pyfloat)
  | VStr (s : string)
  | VList (l : list value)
  | VDict (d : gmap string value).

Inductive exn :=
  | AttributeError
  | TypeError
  | ValueError
  | OverflowError
  | KeyError
  | FileNotFoundError
  | PermissionError
  | YAMLError.

Inductive res (A : Type) :=
  | Ok (a : A)
  | Raise (e : exn).
Arguments Ok {A} a.
Arguments Raise {A} e.

#[global] Instance res_ret : MRet res := fun A a => Ok a.
#[global] Instance res_bind : MBind res := fun A B k c =>
  match c with
  | Ok a => k a
  | Raise e => Raise e
  end.

(** Python truthiness: [None], [False], zero, and the empty string, list
    and dict are false.  The infinities and not-a-number are not zero. *)
Definition truthy (v : value) : bool :=
  match v with
  | VNone => false
  | VBool b => b
  | VInt z => negb (z =? 0)
  | VFloat (Finite q) => negb (Qeq_bool q 0)
  | VFloat NegZero => false
  | VFloat _ => true
  | VStr s => negb (String.eqb s "")
  | VList l => match l with [] => false | _ => true end
  | VDict d => negb (Nat.eqb (size d) 0)
  end.

(** [a or b] *)
Definition por (a b : value) : value := if truthy a then a else b.
Infix "or'" := por (at level 50, left associativity).

(** [d.get(k)] and [d.get(k, dflt)] *)
Definition get (d : gmap string value) (k : string) : value :=
  default VNone (d !! k).
Definition get_or (d : gmap string value) (k : string) (dflt : value) : value :=
  default dflt (d !! k).

(** [x.get(...)] on something that is not a dict raises AttributeError. *)
Definition as_dict (v : value) : res (gmap string value) :=
  match v with
  | VDict d => Ok d
  | _ => Raise AttributeError
  end.

(** ** Comparison of floats

    Every comparison with not-a-number is false.  Otherwise the negative
    infinity lies below and the positive infinity above every finite
    number, and the finite numbers, a negative zero being zero, compare
    by their values. *)
Definition is_nan (x : pyfloat) : bool :=
  match x with NaN => true | _ => false end.

Definition side (x : pyfloat) : Z :=
  match x with
  | Infinite true => -1
  | Infinite false => 1
  | _ => 0
  end.

Definition finite_part (x : pyfloat) : Q :=
  match x with Finite q => q | _ => 0%Q end.

Definition fcompare (x y : pyfloat) : option comparison :=
  if (is_nan x || is_nan y)%bool then None
  else Some match side x ?= side y with
            | Eq => (finite_part x ?= finite_part y)%Q
            | c => c
            end.

(** [x < y], [x <= y] and [x == y] *)
Definition flt (x y : pyfloat) : bool :=
  match fcompare x y with Some Lt => true | _ => false end.
Definition fle (x y : pyfloat) : bool :=
  match fcompare x y with Some Lt | Some Eq => true | _ => false end.
Definition feq (x y : pyfloat) : bool :=
  match fcompare x y with Some Eq => true | _ => false end.

(** Two-argument [max(a, b)] and [min(a, b)]: the first argument is kept
    unless the second is strictly greater (resp. smaller), so a first
    argument that is not-a-number is kept. *)
Definition py_max (a b : pyfloat) : pyfloat := if flt a b then b else a.
Definition py_min (a b : pyfloat) : pyfloat := if flt b a then b else a.

(** ** Rounding to a double

    [float(...)] of an integer or of a decimal text, and a float literal
    of the source, denote the double nearest to the number written, the
    one with the even significand when two are equally near. *)

(** The integer nearest to [n / d], for [0 <= n] and [0 < d]. *)
Definition nearest_even (n d : Z) : Z :=
  let q := n / d in
  match 2 * (n mod d) ?= d with
  | Lt => q
  | Eq => if Z.even q then q else q + 1
  | Gt => q + 1
  end.

(** [n * 2^k / d] as a fraction of integers. *)
Definition scaled (n d k : Z) : Z * Z :=
  if 0 <=? k then (n * 2 ^ k, d) else (n, d * 2 ^ (- k)).

(** The [e] with [2^e <= n / d < 2^(e+1)], for [0 < n] and [0 < d]. *)
Definition binade (n d : Z) : Z :=
  let e0 := Z.log2 n - Z.log2 d in
  let '(a, b) := scaled n d (- e0) in
  if a <? b then e0 - 1 else e0.

(** A double has 53 significant bits, a last place of at least 2^-1074,
    and is below 2^1024; what rounds to 2^1024 or more is infinite. *)
Definition double_of_Q (x : Q) : pyfloat :=
  let negative := Qnum x <? 0 in
  let n := Z.abs (Qnum x) in
  let d := Z.pos (Qden x) in
  if n =? 0 then Finite 0
  else
    let ulp := Z.max (binade n d - 52) (-1074) in
    let '(a, b) := scaled n d (- ulp) in
    let m := nearest_even a b in
    if m =? 0 then (if negative then NegZero else Finite 0)
    else if 1024 <? Z.log2 m + ulp + 1 then Infinite negative
    else
      let m := if negative then - m else m in
      Finite (Qred (if 0 <=? ulp then inject_Z (m * 2 ^ ulp)
                    else Qmake m (Z.to_pos (2 ^ (- ulp))))).

(** The same numbers in the Standard Library's model of IEEE 754
    arithmetic, for comparison: a float of that model as a [pyfloat], the
    double an integer rounds to, and the quotient of two such doubles. *)
Definition float_of_spec (f : spec_float) : pyfloat :=
  match f with
  | S754_zero s => if s then NegZero else Finite 0
  | S754_infinity s => Infinite s
  | S754_nan => NaN
  | S754_finite s m e =>
      let m := if s then Z.neg m else Z.pos m in
      Finite (Qred (if 0 <=? e then inject_Z (m * 2 ^ e)
                    else Qmake m (Z.to_pos (2 ^ (- e)))))
  end.

Definition IEEE_of_Z (z : Z) : spec_float := binary_normalize 53 1024 z 0 false.

Definition IEEE_quotient (n d : Z) : spec_float :=
  SFdiv 53 1024 (IEEE_of_Z n) (IEEE_of_Z d).

(** [float(z)] for an integer: an integer too large for a double raises
    OverflowError. *)
Definition float_of_int (z : Z) : res pyfloat :=
  match double_of_Q (inject_Z z) with
  | Infinite _ => Raise OverflowError
  | f => Ok f
  end.

(** ** Strings *)

(** [str.isspace] for one character, given by its code point: the
    white space of ASCII, and U+0085, U+00A0, U+1680, U+2000 to U+200A,
    U+2028, U+2029, U+202F, U+205F and U+3000. *)
Definition py_isspace (cp : N) : bool :=
  ((9 <=? cp) && (cp <=? 13) || (28 <=? cp) && (cp <=? 32)
   || (cp =? 133) || (cp =? 160) || (cp =? 5760)
   || (8192 <=? cp) && (cp <=? 8202)
   || (cp =? 8232) || (cp =? 8233) || (cp =? 8239) || (cp =? 8287)
   || (cp =? 12288))%N%bool.

(** The bytes of UTF-8: a byte below 128 is a character of its own, a
    byte from 128 to 191 continues a character, and the bytes from 194
    and from 224 begin a character of two and of three bytes.  [code2]
    and [code3] give the code point of such a character, and 0 for bytes
    that do not form one.  (No character of four bytes is white space.) *)
Definition byte (c : ascii) : N := N_of_ascii c.

Definition continues (c : ascii) : bool :=
  ((128 <=? byte c) && (byte c <? 192))%N%bool.

Definition code2 (c1 c2 : ascii) : N :=
  if ((194 <=? byte c1) && (byte c1 <? 224))%N%bool && continues c2
  then ((byte c1 - 192) * 64 + (byte c2 - 128))%N
  else 0%N.

Definition code3 (c1 c2 c3 : ascii) : N :=
  if ((224 <=? byte c1) && (byte c1 <? 240))%N%bool && continues c2 && continues c3
  then ((byte c1 - 224) * 4096 + (byte c2 - 128) * 64 + (byte c3 - 128))%N
  else 0%N.

(** [s.lstrip()]: the white-space characters at the front are dropped. *)
Fixpoint lstrip (s : string) : string :=
  match s with
  | String c1 s1 =>
      if (byte c1 <? 128)%N then
        if py_isspace (byte c1) then lstrip s1 else s
      else
        match s1 with
        | String c2 s2 =>
            if py_isspace (code2 c1 c2) then lstrip s2
            else
              match s2 with
              | String c3 s3 => if py_isspace (code3 c1 c2 c3) then lstrip s3 else s
              | EmptyString => s
              end
        | EmptyString => s
        end
  | EmptyString => EmptyString
  end.

(** Whether [s] consists of white-space characters only. *)
Definition all_space (s : string) : bool :=
  String.eqb (lstrip s) "".

(** [s.rstrip()]: the bytes are kept up to the point from which only
    white space follows. *)
Fixpoint rstrip (s : string) : string :=
  match s with
  | String c s' => if all_space s then EmptyString else String c (rstrip s')
  | EmptyString => EmptyString
  end.

(** [s.strip()] *)
Definition strip (s : string) : string := rstrip (lstrip s).

(** The characters of a string, each as the string of its bytes: a
    continuation byte belongs to the character before it. *)
Definition begins_inside (s : string) : bool :=
  match s with
  | String c _ => continues c
  | EmptyString => false
  end.

Fixpoint chars (s : string) : list string :=
  match s with
  | String c s' =>
      match chars s' with
      | x :: xs =>
          if begins_inside s' then String c x :: xs
          else String c EmptyString :: x :: xs
      | [] => [String c EmptyString]
      end
  | EmptyString => []
  end.

(** [s.startswith(p)] *)
Definition startswith (s p : string) : bool := String.prefix p s.

(** [sep.join(l)] *)
Definition join (sep : string) (l : list string) : string := String.concat sep l.

(** [p in s] for two strings *)
Fixpoint contains (s p : string) : bool :=
  (String.prefix p s ||
   match s with
   | String _ s' => contains s' p
   | EmptyString => false
   end)%bool.

(** ** Records of [models.py]

    A field that the merge fills with whatever the upstream JSON holds is
    a [value]; a field the merge computes is a string or a number.  The
    two numbers, [gross_agdp] and [success_rate], are carried as floats:
    when the clamp gives the integer 0 or 100, the field holds its
    value. *)

Record Offering := {
  o_name : value;
  o_description : value;
  o_type : value;
  o_price : value;
  o_price_type : value;
  o_sla_minutes : value;
  o_requires_funds : value;
  o_requirement : string;
  o_deliverable : string
}.

Record AgentData := {
  rank : Z;
  agent_id : value;
  agent_link : string;
  name : value;
  category : string;
  description : value;
  volume : value;
  gross_agdp : pyfloat;
  revenue : value;
  success_rate : pyfloat;
  rating : value;
  total_jobs : value;
  successful_jobs : value;
  unique_active_wallets : value;
  unique_buyers : value;
  online_status : string;
  last_active_at : string;
  transaction_count : value;
  offerings : list Offering;
  wallet_address : value;
  contract_address : value;
  token_address : value;
  owner_address : value;
  twitter_handle : value;
  symbol : value;
  profile_pic_url : value;
  role : string;
  cluster : string;
  has_graduated : value;
  wallet_balance : string;
  enabled_chains : string;
  virtual_agent_id : string;
  is_virtual_agent : value;
  created_at : value
}.

Record GlobalMetrics := {
  scrape_time : string;
  total_agdp_latest : value;
  total_agents : Z
}.

(** ** Static translation tables of [_merge_agent] *)

Definition CATEGORY_CN : gmap string string :=
  list_to_map [
    ("ON_CHAIN", "链上操作"); ("INFORMATION", "信息分析");
    ("FUNCTIONAL", "功能型"); ("SOCIAL", "社交");
    ("CREATIVE", "创意"); ("ENTERTAINMENT", "娱乐");
    ("DEFI", "去中心化金融"); ("TRADING", "交易");
    ("GAMING", "游戏"); ("DATA", "数据");
    ("PRODUCTIVITY", "生产力"); ("UTILITY", "实用工具");
    ("NONE", "未分类"); ("", "未分类") ].

Definition ROLE_CN : gmap string string :=
  list_to_map [
    ("PROVIDER", "服务提供者"); ("HYBRID", "混合型");
    ("CONSUMER", "消费者"); ("EVALUATOR", "评估者");
    ("PRODUCTIVITY", "生产力"); ("", "未指定") ].

Definition CLUSTER_CN : gmap string string :=
  list_to_map [
    ("hedgefund", "对冲基金"); ("trading", "交易");
    ("defi", "去中心化金融"); ("social", "社交");
    ("gaming", "游戏"); ("data", "数据分析");
    ("mediahouse", "媒体"); ("infrastructure", "基础设施");
    ("", "") ].

(** [table.get(code, code)] *)
Definition translate (table : gmap string string) (code : string) : string :=
  default code (table !! code).

(** ** The network, as the scraper sees it *)

(** The requests the scraper issues (URL and query parameters). *)
Inductive request :=
  | AgentsList
  | MetricsAgents (page page_size : Z)
  | FourMetrics
  | AgentDetail (aid : Z)
  | AgentMetrics (aid : Z).

(** What one attempt of [session.get] gives: a response with its status
    and the outcome of [resp.json()], or an exception of the request
    itself (connection error, timeout). *)
Inductive response :=
  | Http (status : Z) (body : res value)
  | RequestFailed.

(** Effects of [_get], in order. *)
Inductive get_event :=
  | EvSend (attempt : Z)
  | EvWarn (attempt_no : Z)
  | EvSleep (secs : Z).

(** Effects of the pagination walker, in order. *)
Inductive walk_event :=
  | Fetched (page page_size : Z)
  | Slept (secs : Q).

(** The scraper object after [__init__]. *)
Record ACPScraper := {
  concurrency : Z;
  delay : Q;
  max_retries : Z
}.

(** ** Ranking order

    [sorted(..., key=..., reverse=True)] on ids decorated with their keys:
    the sort is stable, so ids with equal keys keep their input order. *)
Fixpoint insert_desc (x : Z * pyfloat) (l : list (Z * pyfloat)) : list (Z * pyfloat) :=
  match l with
  | [] => [x]
  | y :: l' => if flt x.2 y.2 then y :: insert_desc x l' else x :: l
  end.

Definition sorted_desc (l : list (Z * pyfloat)) : list (Z * pyfloat) :=
  foldr insert_desc [] l.

(** [enumerate(l, 1)] *)
Definition enumerate1 {A} (l : list A) : list (Z * A) :=
  imap (fun i x => (1 + Z.of_nat i, x)) l.

(** ** Built-ins of the Python runtime and of the YAML library

    These are not code of the repository; the development is parametric
    in them. *)
Class Builtins := {
  (** [str(v)] for a [v] that is not a [str] *)
  py_repr : value -> string;
  (** [json.dumps(d, ensure_ascii=False)] for a dict [d] *)
  json_dumps : gmap string value -> string;
  (** [float(s)] for a [str]: the double nearest to the number the text
      denotes, an infinity or not-a-number; [None] when it raises
      ValueError *)
  float_of_str : string -> option pyfloat;
  (** [yaml.safe_load] on the text of a file *)
  yaml_safe_load : string -> res value
}.

Section Scraper.
Context `{Builtins}.

(** [str(v)] *)
Definition py_str (v : value) : string :=
  match v with
  | VStr s => s
  | _ => py_repr v
  end.

(** [float(v)] *)
Definition float (v : value) : res pyfloat :=
  match v with
  | VInt z => float_of_int z
  | VFloat f => Ok f
  | VBool b => Ok (Finite (if b then 1 else 0))
  | VStr s =>
      match float_of_str s with
      | Some f => Ok f
      | None => Raise ValueError
      end
  | _ => Raise TypeError
  end.

(** ** [load_config] *)

(** [fs path] is what [open(path, "r")] followed by reading gives: the
    text of the file, or the exception raised. *)
Definition load_config (fs : string -> res string) (path : string) : res value :=
  let body := text ← fs path; v ← yaml_safe_load text; Ok (v or' VDict ∅) in
  match body with
  | Raise FileNotFoundError => Ok (VDict ∅)
  | r => r
  end.

(** ** [ACPScraper._fix_capped_agdp] *)

(** The literal [99_999_999.99] is a float: the double nearest to that
    decimal, which lies a little below it. *)
Definition AGDP_CAP : pyfloat := double_of_Q (9999999999 # 100).

Definition _fix_capped_agdp (gross_agdp volume : value) : res pyfloat :=
  g ← float gross_agdp;
  if fle AGDP_CAP g then
    v ← float volume;
    if flt AGDP_CAP v then float volume else float gross_agdp
  else float gross_agdp.

(** ** Iteration and length of a Python value

    [for x in v] over a list gives its elements, over a string its
    characters, over a dict its keys; anything else is not iterable. *)
Definition py_iter (v : value) : res (list value) :=
  match v with
  | VList l => Ok l
  | VStr s => Ok (VStr <$> chars s)
  | VDict d => Ok ((fun kv => VStr kv.1) <$> map_to_list d)
  | _ => Raise TypeError
  end.

(** [len(v)] *)
Definition py_len (v : value) : res Z :=
  match v with
  | VList l => Ok (Z.of_nat (length l))
  | VStr s => Ok (Z.of_nat (length (chars s)))
  | VDict d => Ok (Z.of_nat (size d))
  | _ => Raise TypeError
  end.

(** An item of [", ".join(...)] has to be a [str]. *)
Definition as_join_item (v : value) : res string :=
  match v with
  | VStr s => Ok s
  | _ => Raise TypeError
  end.

(** [v.startswith(...)] exists on a [str] only. *)
Definition as_str_receiver (v : value) : res string :=
  match v with
  | VStr s => Ok s
  | _ => Raise AttributeError
  end.

(** ** [ACPScraper._parse_offerings] *)

Definition parse_offering (j : value) : res Offering :=
  jd ← as_dict j;
  let req := get_or jd "requirement" (VDict ∅) in
  let req_str := match req with VDict r => json_dumps r | _ => py_str req end in
  let dlv := get_or jd "deliverable" (VDict ∅) in
  let dlv_str := match dlv with VDict r => json_dumps r | _ => py_str dlv end in
  price_v2 ← as_dict (get_or jd "priceV2" (VDict ∅) or' VDict ∅);
  Ok {| o_name := get_or jd "name" (VStr "");
        o_description := get_or jd "description" (VStr "");
        o_type := get_or jd "type" (VStr "");
        o_price := get_or price_v2 "value" (get_or jd "price" (VInt 0)) or' VInt 0;
        o_price_type := get_or price_v2 "type" (VStr "");
        o_sla_minutes := get_or jd "slaMinutes" (VInt 0) or' VInt 0;
        o_requires_funds := get_or jd "requiredFunds" (VBool false);
        o_requirement := if String.eqb req_str "{}" then "" else req_str;
        o_deliverable := if String.eqb dlv_str "{}" then "" else dlv_str |}.

Definition _parse_offerings (jobs_raw : value) : res (list Offering) :=
  js ← py_iter (jobs_raw or' VList []);
  mapM parse_offering js.

(** ** [ACPScraper._merge_agent]

    [list_data] is a dict; [metrics_data] and [detail_data] are a dict or
    [None] ([VNone]). *)

(** The resolved last-active timestamp (line 181). *)
Definition resolve_last_active (l m d : gmap string value) : value :=
  get m "lastActiveAt" or' get d "lastActiveAt" or' get l "lastActiveAt" or' VStr "".

(** The resolved category, role and cluster codes, before [str(...)] and
    [.strip()] (lines 211-213). *)
Definition resolve_category (l d : gmap string value) : value :=
  get l "category" or' get d "category" or' VStr "".
Definition resolve_role (l d : gmap string value) : value :=
  get d "role" or' get l "role" or' VStr "".
Definition resolve_cluster (l d : gmap string value) : value :=
  get d "cluster" or' get l "cluster" or' VStr "".

(** [", ".join(c.get("name", "") for c in chains) if chains else ""] *)
Definition chains_text (chains : value) : res string :=
  if truthy chains then
    cs ← py_iter chains;
    names ← mapM (fun c => cd ← as_dict c; Ok (get_or cd "name" (VStr ""))) cs;
    strs ← mapM as_join_item names;
    Ok (join ", " strs)
  else Ok "".

Definition _merge_agent (rank : Z) (list_data : gmap string value)
    (metrics_data detail_data : value) : res AgentData :=
  d ← as_dict (detail_data or' VDict ∅);
  let l := list_data in
  let jobs_raw := get d "jobs" or' get l "offerings" or' VList [] in
  let chains := get l "enabledChains" or' get d "enabledChains" or' VList [] in
  chains_str ← chains_text chains;
  m ← as_dict (metrics_data or' VDict ∅);
  last_active ← as_str_receiver (resolve_last_active l m d);
  let online_status := if startswith last_active "2999" then "在线" else "离线" in
  let agent_id := get l "id" or' get_or d "id" (VInt 0) in
  let raw_category := strip (py_str (resolve_category l d)) in
  let raw_role := strip (py_str (resolve_role l d)) in
  let raw_cluster := strip (py_str (resolve_cluster l d)) in
  let raw_cluster := if String.eqb raw_cluster "None" then "" else raw_cluster in
  gross ← _fix_capped_agdp
    (get m "grossAgenticAmount" or' get_or l "grossAgenticAmount" (VInt 0) or' VInt 0)
    (get m "volume" or' get_or l "grossAgenticAmount" (VInt 0) or' VInt 0);
  sr ← float (get m "successRate" or' get d "successRate"
              or' get_or l "successRate" (VInt 0) or' VInt 0);
  offs ← _parse_offerings jobs_raw;
  Ok {|
    rank := rank;
    agent_id := agent_id;
    agent_link := "https://app.virtuals.io/acp/agent-details/" ++ py_str agent_id;
    name := get l "name" or' get_or d "name" (VStr "");
    category := translate CATEGORY_CN raw_category;
    description := get d "description" or' get l "description" or' VStr "";
    volume := get m "volume" or' get_or l "grossAgenticAmount" (VInt 0) or' VInt 0;
    gross_agdp := gross;
    revenue := get_or m "revenue" (VInt 0) or' VInt 0;
    success_rate := py_min (py_max sr 0%Q) 100%Q;
    rating := get l "rating" or' get d "rating";
    total_jobs := get m "successfulJobCount" or' get d "transactionCount"
                  or' get_or l "transactionCount" (VInt 0) or' VInt 0;
    successful_jobs := get m "successfulJobCount" or' get d "successfulJobCount"
                       or' get_or l "successfulJobCount" (VInt 0) or' VInt 0;
    unique_active_wallets := get m "uniqueBuyerCount" or' get d "uniqueBuyerCount"
                             or' get_or l "uniqueBuyerCount" (VInt 0) or' VInt 0;
    unique_buyers := get m "uniqueBuyerCount" or' get d "uniqueBuyerCount"
                     or' get_or l "uniqueBuyerCount" (VInt 0) or' VInt 0;
    online_status := online_status;
    last_active_at := if negb (startswith last_active "2999") then last_active
                      else "始终在线";
    transaction_count := get d "transactionCount"
                         or' get_or l "transactionCount" (VInt 0) or' VInt 0;
    offerings := offs;
    wallet_address := get d "walletAddress" or' get_or l "walletAddress" (VStr "");
    contract_address := get d "contractAddress" or' get_or l "contractAddress" (VStr "");
    token_address := get d "tokenAddress" or' get_or l "tokenAddress" (VStr "");
    owner_address := get d "ownerAddress" or' get_or l "ownerAddress" (VStr "");
    twitter_handle := get d "twitterHandle" or' get l "twitterHandle" or' VStr "";
    symbol := get d "symbol" or' get l "symbol" or' VStr "";
    profile_pic_url := get d "profilePic" or' get_or l "profilePic" (VStr "");
    role := translate ROLE_CN raw_role;
    cluster := translate CLUSTER_CN raw_cluster;
    has_graduated := get_or d "hasGraduated" (VBool false)
                     or' get_or l "hasGraduated" (VBool false);
    wallet_balance := py_str (get d "walletBalance" or' get l "walletBalance" or' VStr "");
    enabled_chains := chains_str;
    virtual_agent_id := py_str (get d "virtualAgentId" or' get l "virtualAgentId" or' VStr "");
    is_virtual_agent := get_or d "isVirtualAgent" (VBool false)
                        or' get_or l "isVirtualAgent" (VBool false);
    created_at := get d "createdAt" or' get l "createdAt" or' VStr ""
  |}.

(** ** [ACPScraper._get]

    [net k] is what attempt number [k] (from 0) of this request meets.
    The loop runs over [range(max_retries)]; [todo] counts the attempts
    that are left. *)
Fixpoint get_loop (max_retries : Z) (net : Z -> response) (todo : nat) (attempt : Z)
    : value * list get_event :=
  match todo with
  | O => (VNone, [])
  | S todo' =>
      match net attempt with
      | Http 200 (Ok body) => (body, [EvSend attempt])
      | _ =>
          let pause := if attempt <? max_retries - 1 then [EvSleep (2 ^ attempt)] else [] in
          let '(r, tr) := get_loop max_retries net todo' (attempt + 1) in
          (r, EvSend attempt :: EvWarn (attempt + 1) :: (pause ++ tr)%list)
      end
  end.

Definition _get (self : ACPScraper) (net : Z -> response) : value * list get_event :=
  get_loop (max_retries self) net (Z.to_nat (max_retries self)) 0.

(** The condition [result and "data" in result]. *)
Definition has_data (result : value) : res bool :=
  if truthy result then
    match result with
    | VDict d => Ok (bool_decide (is_Some (d !! "data")))
    | VList l => Ok (existsb (fun x => match x with VStr s => String.eqb s "data" | _ => false end) l)
    | VStr s => Ok (contains s "data")
    | _ => Raise TypeError
    end
  else Ok false.

(** [result["data"]] *)
Definition subscript_data (result : value) : res value :=
  match result with
  | VDict d => match d !! "data" with Some v => Ok v | None => Raise KeyError end
  | _ => Raise TypeError
  end.

Section Fetch.
Variable self : ACPScraper.
Variable net : request -> Z -> response.

Definition fetch_all_agents : res value :=
  let result := (_get self (net AgentsList)).1 in
  c ← has_data result;
  if (c : bool) then data ← subscript_data result; _ ← py_len data; Ok data
  else Ok (VList []).

Definition fetch_metrics_leaderboard (page page_size : Z) : res value :=
  let result := (_get self (net (MetricsAgents page page_size))).1 in
  c ← has_data result;
  if (c : bool) then subscript_data result else Ok (VList []).

(** [fetch_all_metrics_pages]: the [while True] loop, with [fuel] bounding
    the number of iterations; [None] when the fuel runs out. *)
Fixpoint pages_loop (fuel : nat) (all_agents : list value) (page page_size : Z)
    : option (res (list value) * list walk_event) :=
  match fuel with
  | O => None
  | S fuel' =>
      let fetched := Fetched page page_size in
      match fetch_metrics_leaderboard page page_size with
      | Raise e => Some (Raise e, [fetched])
      | Ok batch =>
          if negb (truthy batch) then Some (Ok all_agents, [fetched])
          else
            match items ← py_iter batch; n ← py_len batch; Ok (items, n) with
            | Raise e => Some (Raise e, [fetched])
            | Ok (items, n) =>
                let all_agents := (all_agents ++ items)%list in
                if n <? page_size then Some (Ok all_agents, [fetched])
                else
                  '(r, tr) ← pages_loop fuel' all_agents (page + 1) page_size;
                  Some (r, fetched :: Slept (delay self) :: tr)
            end
      end
  end.

Definition fetch_all_metrics_pages (fuel : nat)
    : option (res (list value) * list walk_event) :=
  pages_loop fuel [] 1 100.

(** [seq[-1]] *)
Definition last_item (v : value) : res value :=
  match v with
  | VList l => match last l with Some x => Ok x | None => Raise KeyError end
  | VStr s => match last (chars s) with Some c => Ok (VStr c) | None => Raise KeyError end
  | VDict _ => Raise KeyError
  | _ => Raise TypeError
  end.

Definition fetch_global_metrics (now : string) : res GlobalMetrics :=
  let result := (_get self (net FourMetrics)).1 in
  let gm := {| scrape_time := now; total_agdp_latest := VFloat 0; total_agents := 0 |} in
  c ← has_data result;
  if (c : bool) then
    top ← subscript_data result;
    top ← as_dict top;
    data ← as_dict (get_or top "result" (VDict ∅));
    gav ← as_dict (get_or data "GAV" (VDict ∅));
    let seven_d := get_or gav "7D" (VList []) in
    if truthy seven_d then
      final ← last_item seven_d;
      final ← as_dict final;
      Ok {| scrape_time := now;
            total_agdp_latest := get_or final "value" (VInt 0);
            total_agents := 0 |}
    else Ok gm
  else Ok gm.

Definition fetch_agent_detail (agent_id : Z) : res value :=
  let result := (_get self (net (AgentDetail agent_id))).1 in
  c ← has_data result;
  if (c : bool) then subscript_data result else Ok VNone.

Definition fetch_agent_metrics (agent_id : Z) : res value :=
  let result := (_get self (net (AgentMetrics agent_id))).1 in
  c ← has_data result;
  if (c : bool) then subscript_data result else Ok VNone.

(** ** [ACPScraper.scrape_all] *)

(** [a["id"]], used as a dict key, together with the dict [a].  The maps
    are [Dict[int, dict]]: an id that is not an integer is outside the
    model and treated as a type error. *)
Definition subscript_id (a : value) : res (Z * gmap string value) :=
  match a with
  | VDict d =>
      match d !! "id" with
      | Some (VInt z) => Ok (z, d)
      | Some _ => Raise TypeError
      | None => Raise KeyError
      end
  | _ => Raise TypeError
  end.

(** [{a["id"]: a for a in records}]: a later record replaces an earlier
    one with the same id. *)
Definition index_by_id (records : list value) : res (gmap Z (gmap string value)) :=
  entries ← mapM subscript_id records;
  Ok (foldl (fun acc e => <[e.1 := e.2]> acc) ∅ entries).

(** The four mappings the ranking and the merge read. *)
Record sources := {
  agents_map : gmap Z (gmap string value);
  metrics_map : gmap Z (gmap string value);
  detail_map : gmap Z value;
  ind_metrics_map : gmap Z value
}.

(** [sorted(set(list(agents_map.keys()) + list(metrics_map.keys())))] *)
Definition all_ids_of (am mm : gmap Z (gmap string value)) : list Z :=
  merge_sort Z.le (elements (dom am ∪ dom mm)).

(** [asyncio.Semaphore(value)]: the number of permits, which must not be
    negative. *)
Definition Semaphore (value : Z) : res Z :=
  if value <? 0 then Raise ValueError else Ok value.

(** One task of the fan-out, once it holds a permit.  The pacing sleeps
    only space the requests; each task talks to its own two URLs. *)
Definition fetch_detail_throttled (aid : Z) : res (Z * value * value) :=
  detail ← fetch_agent_detail aid;
  metrics ← fetch_agent_metrics aid;
  Ok (aid, detail, metrics).

(** The loop over the results of [gather(..., return_exceptions=True)]. *)
Definition collect_results (results : list (res (Z * value * value)))
    : gmap Z value * gmap Z value :=
  foldl (fun acc r =>
           match r with
           | Raise _ => acc
           | Ok (aid, detail, ind_metrics) =>
               (if truthy detail then <[aid := detail]> acc.1 else acc.1,
                if truthy ind_metrics then <[aid := ind_metrics]> acc.2 else acc.2)
           end) (∅, ∅) results.

(** The key function of the ranking sort (line 306). *)
Definition volume_key (src : sources) (x : Z) : res value :=
  ind ← as_dict (default (VDict ∅) (ind_metrics_map src !! x));
  Ok (get_or ind "volume" (VInt 0)
      or' get_or (default ∅ (metrics_map src !! x)) "volume" (VInt 0)
      or' VInt 0).

(** Keys are compared as numbers, an integer by its exact value.  Keys
    that are not numbers are outside the model and treated as a type
    error, also where Python would get away with them (it orders strings
    among themselves, raises TypeError on mixed types, and compares
    nothing when there is a single id).  So is a key that is
    not-a-number: every comparison with it is false, and the order the
    sort leaves then depends on the steps of its algorithm. *)
Definition comparable_key (v : value) : res pyfloat :=
  match v with
  | VInt z => Ok (Finite (inject_Z z))
  | VFloat NaN => Raise TypeError
  | VFloat f => Ok f
  | VBool b => Ok (Finite (if b then 1 else 0))
  | _ => Raise TypeError
  end.

(** [sorted(all_ids, key=..., reverse=True)], with the keys kept. *)
Definition ranking (src : sources) (all_ids : list Z) : res (list (Z * pyfloat)) :=
  keys ← mapM (volume_key src) all_ids;
  qs ← mapM comparable_key keys;
  Ok (sorted_desc (zip all_ids qs)).

(** The body of the final loop (lines 312-315). *)
Definition merge_entry (src : sources) (rank aid : Z) : res AgentData :=
  let list_entry := default {[ "id" := VInt aid ]} (agents_map src !! aid) in
  let merged_metrics :=
    default VNone (ind_metrics_map src !! aid)
    or' default VNone (VDict <$> metrics_map src !! aid) in
  let detail := default VNone (detail_map src !! aid) in
  _merge_agent rank list_entry merged_metrics detail.

(** The two id-indexed mappings, the candidate ids and the semaphore
    (lines 271-278). *)
Definition index_sources (agents_list : value) (metrics_list : list value)
    : res (gmap Z (gmap string value) * gmap Z (gmap string value) * list Z * Z) :=
  mm ← index_by_id metrics_list;
  agents ← py_iter agents_list;
  am ← index_by_id agents;
  permits ← Semaphore (concurrency self);
  Ok (am, mm, all_ids_of am mm, permits).

(** Everything after the three list-level fetches, up to the ranking.
    Every task of the fan-out takes a permit of the semaphore and gives
    it back when it ends: with a permit to go round, all tasks run to
    their end; with none, the first task waits for ever and [gather]
    never returns, which is the outcome [None]. *)
Definition gather_sources (agents_list : value) (metrics_list : list value)
    : option (res (sources * list Z)) :=
  match index_sources agents_list metrics_list with
  | Raise e => Some (Raise e)
  | Ok (am, mm, all_ids, permits) =>
      if (permits =? 0) && negb (bool_decide (all_ids = [])) then None
      else
        let maps := collect_results (fetch_detail_throttled <$> all_ids) in
        Some (Ok ({| agents_map := am; metrics_map := mm;
                     detail_map := maps.1; ind_metrics_map := maps.2 |}, all_ids))
  end.

Definition rank_and_merge (src : sources) (all_ids : list Z) : res (list AgentData) :=
  sorted_ids ← ranking src all_ids;
  mapM (fun '(rank, (aid, _)) => merge_entry src rank aid) (enumerate1 sorted_ids).

(** The run as a whole.  [None] is a run that does not return: the
    pagination has not come to its end within [fuel] turns, or the
    fan-out waits for a permit that never comes. *)
Definition scrape_all (now : string) (fuel : nat)
    : option (res (list AgentData * GlobalMetrics)) :=
  match fetch_global_metrics now with
  | Raise e => Some (Raise e)
  | Ok global_metrics =>
      match fetch_all_agents with
      | Raise e => Some (Raise e)
      | Ok agents_list =>
          '(pages, _) ← fetch_all_metrics_pages fuel;
          match pages with
          | Raise e => Some (Raise e)
          | Ok metrics_list =>
              gathered ← gather_sources agents_list metrics_list;
              Some ('(src, all_ids) ← gathered;
                    agent_data_list ← rank_and_merge src all_ids;
                    Ok (agent_data_list,
                        {| scrape_time := scrape_time global_metrics;
                           total_agdp_latest := total_agdp_latest global_metrics;
                           total_agents := Z.of_nat (length all_ids) |}))
          end
      end
  end.

End Fetch.

End Scraper.

(** ** [ACPScraper.__init__]

    The settings are kept as the configuration holds them: nothing checks
    their types before they are used. *)
Record ScraperSettings := {
  config : value;
  raw_concurrency : value;
  raw_delay : value;
  raw_max_retries : value
}.

Definition __init__ `{Builtins} (fs : string -> res string) (config : value)
    : res ScraperSettings :=
  cfg ← (if truthy config then Ok config else load_config fs "config.yaml");
  cfg_dict ← as_dict cfg;
  scraper_cfg ← as_dict (get_or cfg_dict "scraper" (VDict ∅));
  Ok {| config := cfg;
        raw_concurrency := get_or scraper_cfg "concurrency" (VInt 3);
        raw_delay := get_or scraper_cfg "request_delay_sec" (VFloat (3 # 2));
        raw_max_retries := get_or scraper_cfg "max_retries" (VInt 3) |}.

(** ** [excel_exporter.py]: the cell texts *)

(** The number formats of the price column are the runtime's:
    [f"{price * 100:.1f}"] and [f"{price:.2f}"], which raise on a price
    that is not a number. *)
Class Formatting := {
  format_percent : value -> res string;
  format_amount : value -> res string
}.

(** [f"{i}"] for an integer. *)
Definition str_of_int (i : Z) : string := NilZero.string_of_int (Z.to_int i).

Definition newline : string := String (ascii_of_nat 10) EmptyString.

(** The line [_format_offerings_field] appends for offering number [i];
    [None] when [field] is none of the five it knows, in which case
    nothing is appended. *)
Definition offering_line `{Builtins} `{Formatting} (field : string) (i : Z) (o : Offering)
    : res (option string) :=
  let num := str_of_int i ++ ". " in
  if String.eqb field "names" then Ok (Some (num ++ py_str (o_name o)))
  else if String.eqb field "descs" then
    Ok (Some (if truthy (o_description o) then num ++ py_str (o_description o)
              else num ++ "无描述"))
  else if String.eqb field "prices" then
    match o_price_type o with
    | VStr "percentage" =>
        p ← format_percent (o_price o); Ok (Some (num ++ p ++ "% (按比例)"))
    | _ =>
        p ← format_amount (o_price o); Ok (Some (num ++ "$" ++ p ++ " USDC (固定价格)"))
    end
  else if String.eqb field "sla" then
    Ok (Some (num ++ py_str (o_sla_minutes o) ++ " 分钟"))
  else if String.eqb field "reqs" then
    Ok (Some (if negb (String.eqb (o_requirement o) "") then num ++ o_requirement o
              else num ++ "无要求"))
  else Ok None.

Definition _format_offerings_field `{Builtins} `{Formatting}
    (offerings : list Offering) (field : string) : res string :=
  match offerings with
  | [] => Ok "无"
  | _ =>
      lines ← mapM (fun '(i, o) => offering_line field i o) (enumerate1 offerings);
      Ok (join newline (omap id lines))
  end.

(** A cell of the sheet: a text, or a field of the record as it is. *)
Inductive cell :=
  | CText (s : string)
  | CValue (v : value)
  | CFloat (f : pyfloat)
  | CInt (z : Z)
  | COfferings (l : list Offering).

(** [getattr(agent, key)] for the fields of the dataclass; [None] for any
    other key.  (The attributes every Python object has besides its
    fields are not modelled.) *)
Definition agent_attr (agent : AgentData) (key : string) : option cell :=
  if String.eqb key "rank" then Some (CInt (rank agent))
  else if String.eqb key "agent_id" then Some (CValue (agent_id agent))
  else if String.eqb key "agent_link" then Some (CText (agent_link agent))
  else if String.eqb key "name" then Some (CValue (name agent))
  else if String.eqb key "category" then Some (CText (category agent))
  else if String.eqb key "description" then Some (CValue (description agent))
  else if String.eqb key "volume" then Some (CValue (volume agent))
  else if String.eqb key "gross_agdp" then Some (CFloat (gross_agdp agent))
  else if String.eqb key "revenue" then Some (CValue (revenue agent))
  else if String.eqb key "success_rate" then Some (CFloat (success_rate agent))
  else if String.eqb key "rating" then Some (CValue (rating agent))
  else if String.eqb key "total_jobs" then Some (CValue (total_jobs agent))
  else if String.eqb key "successful_jobs" then Some (CValue (successful_jobs agent))
  else if String.eqb key "unique_active_wallets" then
    Some (CValue (unique_active_wallets agent))
  else if String.eqb key "unique_buyers" then Some (CValue (unique_buyers agent))
  else if String.eqb key "online_status" then Some (CText (online_status agent))
  else if String.eqb key "last_active_at" then Some (CText (last_active_at agent))
  else if String.eqb key "transaction_count" then
    Some (CValue (transaction_count agent))
  else if String.eqb key "offerings" then Some (COfferings (offerings agent))
  else if String.eqb key "wallet_address" then Some (CValue (wallet_address agent))
  else if String.eqb key "contract_address" then
    Some (CValue (contract_address agent))
  else if String.eqb key "token_address" then Some (CValue (token_address agent))
  else if String.eqb key "owner_address" then Some (CValue (owner_address agent))
  else if String.eqb key "twitter_handle" then Some (CValue (twitter_handle agent))
  else if String.eqb key "symbol" then Some (CValue (symbol agent))
  else if String.eqb key "profile_pic_url" then Some (CValue (profile_pic_url agent))
  else if String.eqb key "role" then Some (CText (role agent))
  else if String.eqb key "cluster" then Some (CText (cluster agent))
  else if String.eqb key "has_graduated" then Some (CValue (has_graduated agent))
  else if String.eqb key "wallet_balance" then Some (CText (wallet_balance agent))
  else if String.eqb key "enabled_chains" then Some (CText (enabled_chains agent))
  else if String.eqb key "virtual_agent_id" then
    Some (CText (virtual_agent_id agent))
  else if String.eqb key "is_virtual_agent" then
    Some (CValue (is_virtual_agent agent))
  else if String.eqb key "created_at" then Some (CValue (created_at agent))
  else None.

Definition _get_cell_value `{Builtins} `{Formatting} (agent : AgentData) (key : string)
    : res cell :=
  if String.eqb key "offering_names" then
    s ← _format_offerings_field (offerings agent) "names"; Ok (CText s)
  else if String.eqb key "offering_descs" then
    s ← _format_offerings_field (offerings agent) "descs"; Ok (CText s)
  else if String.eqb key "offering_prices" then
    s ← _format_offerings_field (offerings agent) "prices"; Ok (CText s)
  else if String.eqb key "offering_sla" then
    s ← _format_offerings_field (offerings agent) "sla"; Ok (CText s)
  else if String.eqb key "offering_reqs" then
    s ← _format_offerings_field (offerings agent) "reqs"; Ok (CText s)
  else if String.eqb key "has_graduated" then
    Ok (CText (if truthy (has_graduated agent) then "是" else "否"))
  else if String.eqb key "is_virtual_agent" then
    Ok (CText (if truthy (is_virtual_agent agent) then "是" else "否"))
  else if String.eqb key "success_rate" then Ok (CFloat (success_rate agent))
  else if String.eqb key "twitter_handle" then
    Ok (CText (if truthy (twitter_handle agent)
               then "@" ++ py_str (twitter_handle agent) else ""))
  else if String.eqb key "agent_link" then Ok (CText (agent_link agent))
  else Ok (default (CText "") (agent_attr agent key)).

(** [HEADER_STRUCTURE] *)
Definition HEADER_STRUCTURE : list (string * list (string * string)) :=
  [ ("Core Info",
      [("Rank", "rank"); ("Agent Link", "agent_link"); ("Name", "name");
       ("Category", "category"); ("Description", "description")]);
    ("Key Metrics",
      [("Volume (Total AGDP)", "volume"); ("Gross AGDP", "gross_agdp");
       ("Total Revenue", "revenue"); ("Success Rate (%)", "success_rate");
       ("Rating", "rating")]);
    ("Activity",
      [("Transaction Count", "transaction_count");
       ("Successful Jobs", "successful_jobs"); ("Unique Buyers", "unique_buyers");
       ("Online Status", "online_status"); ("Last Active", "last_active_at")]);
    ("What I Offer",
      [("Offering Names", "offering_names");
       ("Offering Descriptions", "offering_descs");
       ("Offering Prices", "offering_prices"); ("Offering SLA (min)", "offering_sla");
       ("Offering Requirements", "offering_reqs")]);
    ("Identity & Links",
      [("Wallet Address", "wallet_address"); ("Contract Address", "contract_address");
       ("Token Address", "token_address"); ("Owner Address", "owner_address");
       ("Twitter Handle", "twitter_handle"); ("Symbol", "symbol"); ("Role", "role");
       ("Cluster", "cluster"); ("Graduated", "has_graduated");
       ("Wallet Balance", "wallet_balance"); ("Enabled Chains", "enabled_chains");
       ("Virtual Agent ID", "virtual_agent_id");
       ("Is Virtual Agent", "is_virtual_agent"); ("Created At", "created_at");
       ("Profile Pic URL", "profile_pic_url")]) ].

(** The field keys of the columns, left to right, as the three loops of
    [export_to_excel] walk them. *)
Definition column_keys : list string :=
  l2 ← HEADER_STRUCTURE; snd <$> l2.2.

(** One data row of the sheet: the cell values of an agent, left to
    right (lines 193-206). *)
Definition data_row `{Builtins} `{Formatting} (agent : AgentData) : res (list cell) :=
  mapM (_get_cell_value agent) column_keys.

(** ** A concrete runtime for the examples

    Integers, booleans and [None] print as Python prints them; the empty
    dict dumps to its JSON text.  [float] reads a text, white space
    around it stripped, that is a sign followed by [nan], [inf],
    [infinity], or by decimal digits with at most one point, and rounds
    the decimal to the nearest double.  Nothing else is needed by the
    examples below: other values print as the empty string, other texts
    (exponents, digit separators) are not read as floats, and the YAML
    loader accepts the empty document only. *)
Definition example_repr (v : value) : string :=
  match v with
  | VNone => "None"
  | VBool true => "True"
  | VBool false => "False"
  | VInt z => NilZero.string_of_int (Z.to_int z)
  | _ => ""
  end.

(** The number a string of decimal digits denotes after the digits
    [acc]; [None] when a character is not a digit. *)
Fixpoint digits_value (s : string) (acc : Z) : option Z :=
  match s with
  | EmptyString => Some acc
  | String c s' =>
      let b := Z.of_N (N_of_ascii c) in
      if (48 <=? b) && (b <=? 57) then digits_value s' (10 * acc + (b - 48))
      else None
  end.

(** The text before and after the first occurrence of the byte [sep]. *)
Fixpoint split_at (sep : ascii) (s : string) : string * option string :=
  match s with
  | EmptyString => (EmptyString, None)
  | String c s' =>
      if Ascii.eqb c sep then (EmptyString, Some s')
      else let '(before, after) := split_at sep s' in (String c before, after)
  end.

(** ASCII letters in lower case. *)
Fixpoint lower (s : string) : string :=
  match s with
  | EmptyString => EmptyString
  | String c s' =>
      let b := N_of_ascii c in
      String (if ((65 <=? b) && (b <=? 90))%N%bool then ascii_of_N (b + 32) else c)
             (lower s')
  end.

Definition example_float_of_str (s : string) : option pyfloat :=
  let t := lower (strip s) in
  let '(negative, body) :=
    match t with
    | String "-" r => (true, r)
    | String "+" r => (false, r)
    | _ => (false, t)
    end in
  if String.eqb body "nan" then Some NaN
  else if String.eqb body "inf" || String.eqb body "infinity" then
    Some (Infinite negative)
  else
    let '(whole, fraction) := split_at "." body in
    let fraction := default EmptyString fraction in
    if String.eqb whole "" && String.eqb fraction "" then None
    else
      w ← digits_value whole 0;
      n ← digits_value fraction w;
      if n =? 0 then Some (if negative then NegZero else Finite 0)
      else
        let den := Z.to_pos (10 ^ Z.of_nat (String.length fraction)) in
        Some (double_of_Q (Qmake (if negative then - n else n) den)).

Definition example_builtins : Builtins := {|
  py_repr := example_repr;
  json_dumps := fun d => if Nat.eqb (size d) 0 then "{}" else "";
  float_of_str := example_float_of_str;
  yaml_safe_load := fun text => if String.eqb text "" then Ok VNone else Raise YAMLError
|}.

(** A dict from its items, and a successful JSON response. *)
Definition obj (items : list (string * value)) : value := VDict (list_to_map items).
Definition ok_json (v : value) : response := Http 200 (Ok v).

(** ** Inputs of the examples *)

Definition example_scraper : ACPScraper :=
  {| concurrency := 3; delay := 3 # 2; max_retries := 3 |}.

(** The end-to-end scenario: a list record and a metrics record for agent
    1, no detail record. *)
Definition foo_list : gmap string value :=
  list_to_map [("id", VInt 1); ("name", VStr "Foo"); ("grossAgenticAmount", VInt 50)].
Definition foo_metrics : value :=
  obj [("id", VInt 1); ("volume", VInt 60); ("successRate", VInt 150)].

(** A metrics record whose gross value sits on the cap while its volume is
    above it. *)
Definition bare_list : gmap string value := {[ "id" := VInt 1 ]}.
Definition capped_metrics : value :=
  obj [("grossAgenticAmount", VInt 100000000); ("volume", VInt 200000000)].

(** A metrics record whose success rate is the text "nan". *)
Definition nan_metrics : value := obj [("successRate", VStr "nan")].

(** A metrics record of an always-online agent. *)
Definition online_metrics : value :=
  obj [("lastActiveAt", VStr "2999-12-31T00:00:00.000Z")].

(** White space beyond ASCII, by its UTF-8 bytes: the ideographic space
    U+3000, the no-break space U+00A0 and the next-line control U+0085;
    and the zero-width space U+200B, which is not white space. *)
Definition ideographic_space : string := String "227" (String "128" (String "128" "")).
Definition no_break_space : string := String "194" (String "160" "").
Definition next_line : string := String "194" (String "133" "").
Definition zero_width_space : string := String "226" (String "128" (String "139" "")).

(** Detail records with a known category inside white space, a known
    role and an unknown cluster, and with the cluster text "None". *)
Definition coded_detail : value :=
  obj [("category", VStr (ideographic_space ++ "TRADING" ++ no_break_space ++ " "));
       ("role", VStr "PROVIDER"); ("cluster", VStr "UNKNOWN_X")].
Definition none_cluster_detail : value := obj [("cluster", VStr "None")].

(** A network on which every attempt fails. *)
Definition dead_net : Z -> response := fun _ => RequestFailed.

(** A leaderboard with exactly 100 records on page 1 and none after. *)
Definition hundred_records : list value :=
  (fun i => obj [("id", VInt i)]) <$> seqZ 1 100.
Definition paged_net (r : request) (attempt : Z) : response :=
  match r with
  | MetricsAgents 1 _ => ok_json (obj [("data", VList hundred_records)])
  | MetricsAgents _ _ => ok_json (obj [("data", VList [])])
  | _ => RequestFailed
  end.
Definition paged_batches (page : Z) : list value :=
  if page =? 1 then hundred_records else [].


(** Agents 1 and 3 have the same leaderboard volume, agent 2 a larger
    one; the list names them in the order 3, 1, 2. *)
Definition tie_net (r : request) (attempt : Z) : response :=
  match r with
  | AgentsList =>
      ok_json (obj [("data", VList [obj [("id", VInt 3)]; obj [("id", VInt 1)];
                                    obj [("id", VInt 2)]])])
  | MetricsAgents 1 _ =>
      ok_json (obj [("data", VList [obj [("id", VInt 3); ("volume", VInt 500)];
                                    obj [("id", VInt 1); ("volume", VInt 500)];
                                    obj [("id", VInt 2); ("volume", VInt 900)]])])
  | _ => Http 404 (Raise ValueError)
  end.

(** A file system without the configuration file, and one whose
    configuration file is cut off in the middle of a list. *)
Definition no_config_fs : string -> res string := fun _ => Raise FileNotFoundError.
Definition broken_config_fs : string -> res string := fun _ => Ok "scraper: [".

(** A request that fails twice and then answers, and a scraper without
    any retry budget. *)
Definition flaky_net (attempt : Z) : response :=
  if attempt <? 2 then Http 503 (Raise ValueError)
  else ok_json (obj [("data", VList [])]).
Definition idle_scraper : ACPScraper :=
  {| concurrency := 3; delay := 3 # 2; max_retries := 0 |}.

(** Scrapers with a negative concurrency setting and with none. *)
Definition hasty_scraper : ACPScraper :=
  {| concurrency := -1; delay := 3 # 2; max_retries := 3 |}.
Definition stalled_scraper : ACPScraper :=
  {| concurrency := 0; delay := 3 # 2; max_retries := 3 |}.

(** An agent list whose [data] member is null. *)
Definition null_data_body : gmap string value := {[ "data" := VNone ]}.
Definition null_data_net (r : request) (attempt : Z) : response :=
  ok_json (VDict null_data_body).

(** Platform metrics with a 7-day series of two points. *)
Definition gav_series : gmap string value :=
  {[ "7D" := VList [obj [("value", VInt 10)]; obj [("value", VInt 25)]] ]}.
Definition gav_result : gmap string value := {[ "GAV" := VDict gav_series ]}.
Definition gav_top : gmap string value := {[ "result" := VDict gav_result ]}.
Definition gav_body : gmap string value := {[ "data" := VDict gav_top ]}.
Definition gav_net (r : request) (attempt : Z) : response :=
  match r with
  | FourMetrics => ok_json (VDict gav_body)
  | _ => RequestFailed
  end.

(** A leaderboard that is full on every page. *)
Definition endless_net (r : request) (attempt : Z) : response :=
  match r with
  | MetricsAgents _ _ => ok_json (obj [("data", VList hundred_records)])
  | _ => RequestFailed
  end.

(** Two raw job entries, and a detail record that carries them. *)
Definition swap_job : gmap string value :=
  list_to_map [("name", VStr "Swap"); ("price", VInt 1);
               ("priceV2", obj [("type", VStr "fixed"); ("value", VInt 5)])].
Definition report_job : gmap string value :=
  list_to_map [("name", VStr "Report"); ("price", VInt 2);
               ("requirement", VStr "{}")].
Definition jobs_detail : value :=
  obj [("jobs", VList [VDict swap_job; VDict report_job]);
       ("name", VStr "Detail name"); ("description", VStr "From detail");
       ("hasGraduated", VBool true); ("walletAddress", VStr "0xabc")].
Definition named_list : gmap string value :=
  list_to_map [("id", VInt 7); ("name", VStr "List name");
               ("description", VStr "From list")].

(** Two records with the same id. *)
Definition first_seven : gmap string value :=
  list_to_map [("id", VInt 7); ("name", VStr "old")].
Definition second_seven : gmap string value :=
  list_to_map [("id", VInt 7); ("name", VStr "new")].

(** Agent 1 has a detail record, but its metrics response is a JSON list
    that contains the text "data", on which the subscript raises; agent
    2 has a detail record and no metrics. *)
Definition detail_one : value := obj [("name", VStr "One")].
Definition detail_two : value := obj [("name", VStr "Two")].
Definition fanout_net (r : request) (attempt : Z) : response :=
  match r with
  | AgentDetail 1 => ok_json (obj [("data", detail_one)])
  | AgentMetrics 1 => ok_json (VList [VStr "data"])
  | AgentDetail 2 => ok_json (obj [("data", detail_two)])
  | _ => RequestFailed
  end.

(** Configurations: one with a partial [scraper] section, one whose
    section is null. *)
Definition partial_section : gmap string value :=
  list_to_map [("max_retries", VInt 5); ("concurrency", VNone)].
Definition partial_config : gmap string value :=
  {[ "scraper" := VDict partial_section ]}.
Definition null_section_config : gmap string value := {[ "scraper" := VNone ]}.

(** Number formats for the examples: integers only. *)
Definition example_formatting : Formatting := {|
  format_percent := fun v =>
    match v with
    | VInt z => Ok (str_of_int (z * 100) ++ ".0")
    | _ => Raise TypeError
    end;
  format_amount := fun v =>
    match v with
    | VInt z => Ok (str_of_int z ++ ".00")
    | _ => Raise TypeError
    end
|}.

Definition swap_offering : Offering :=
  {| o_name := VStr "Swap"; o_description := VStr ""; o_type := VStr "";
     o_price := VInt 5; o_price_type := VStr "fixed"; o_sla_minutes := VInt 10;
     o_requires_funds := VBool false; o_requirement := ""; o_deliverable := "" |}.

(** A list record with two enabled chains, and sources in which agent 7
    has a per-agent metrics record with a volume. *)
Definition chained_list : gmap string value :=
  list_to_map [("id", VInt 7);
               ("enabledChains", VList [obj [("name", VStr "Base")];
                                        obj [("name", VStr "Solana")]])].
Definition own_metrics : gmap string value :=
  list_to_map [("volume", VInt 800); ("successRate", VFloat (85 # 2))].
Definition own_sources : sources :=
  {| agents_map := {[ 7 := named_list ]};
     metrics_map := {[ 7 := list_to_map [("id", VInt 7); ("volume", VInt 300)] ]};
     detail_map := ∅;
     ind_metrics_map := {[ 7 := VDict own_metrics ]} |}.

(** Integers, and quotients of two doubles, on which the rounding is
    compared with the Standard Library's. *)
Definition integer_samples : list Z :=
  [0; 1; -5; 150; 2 ^ 53 + 1; 2 ^ 53 + 2; 2 ^ 53 + 3; 2 ^ 60 + 2 ^ 7;
   2 ^ 60 + 2 ^ 7 + 1; - (2 ^ 60 + 2 ^ 7); 10 ^ 23; 2 ^ 1024 - 2 ^ 970 - 1;
   2 ^ 1024 - 2 ^ 970; 2 ^ 1024; - 2 ^ 1024].
Definition quotient_samples : list (Z * Z) :=
  [(1, 10); (9999999999, 100); (9999999998, 100); (10000000001, 100);
   (1, 3); (-2, 3); (85, 2); (4, 7); (1, 2 ^ 100);
   (9007199254740991, 3); (-1, 9007199254740991)].

(** ** Vocabulary of the statements *)

(** The dict the merge reads for an optional record. *)
Definition record_of (v : value) : gmap string value :=
  match v or' VDict ∅ with
  | VDict d => d
  | _ => ∅
  end.

(** An attempt fails unless it is a 200 whose body parses. *)
Definition failed (r : response) : bool :=
  match r with
  | Http 200 (Ok _) => false
  | _ => true
  end.

(** The attempts made and the pauses taken, read off a trace of [_get]. *)
Definition sends (tr : list get_event) : list Z :=
  omap (fun e => match e with EvSend k => Some k | _ => None end) tr.
Definition sleeps (tr : list get_event) : list Z :=
  omap (fun e => match e with EvSleep s => Some s | _ => None end) tr.

(** What a failing attempt number [k] out of [n] leaves in the trace. *)
Definition failed_attempt (n k : Z) : list get_event :=
  EvSend k :: EvWarn (k + 1) :: (if k <? n - 1 then [EvSleep (2 ^ k)] else []).

(** The pages requested, read off a trace of the walker. *)
Definition fetched_pages (tr : list walk_event) : list Z :=
  omap (fun e => match e with Fetched p _ => Some p | _ => None end) tr.



(** [q] is the number the ranking sort uses for agent [aid]. *)
Definition ranking_key `{Builtins} (src : sources) (aid : Z) (q : pyfloat) : Prop :=
  exists k, volume_key src aid = Ok k /\ comparable_key k = Ok q.

(** The mappings and the candidate ids a scrape run works from. *)
Definition run_sources `{Builtins} (self : ACPScraper) (net : request -> Z -> response)
    (fuel : nat) (src : sources) (all_ids : list Z) : Prop :=
  exists agents_list metrics_list tr,
    fetch_all_agents self net = Ok agents_list /\
    fetch_all_metrics_pages self net fuel = Some (Ok metrics_list, tr) /\
    gather_sources self net agents_list metrics_list = Some (Ok (src, all_ids)).

(** A response body without a usable [data] member: [None], or a dict
    that has no such key. *)
Definition no_data (result : value) : Prop :=
  result = VNone \/ exists d, result = VDict d /\ d !! "data" = None.

(** The pauses of the walker, read off its trace. *)
Definition walk_delays (tr : list walk_event) : list Q :=
  omap (fun e => match e with Slept s => Some s | _ => None end) tr.

(** What the fan-out leaves in the detail and per-agent metrics mappings
    for one id: the fetched record when the whole task returned and the
    record is not empty. *)
Definition kept_detail (r : res (Z * value * value)) : option value :=
  match r with
  | Ok (_, detail, _) => if truthy detail then Some detail else None
  | Raise _ => None
  end.
Definition kept_metrics (r : res (Z * value * value)) : option value :=
  match r with
  | Ok (_, _, metrics) => if truthy metrics then Some metrics else None
  | Raise _ => None
  end.

(** * Properties *)

(** ** The error monad *)

Lemma bind_Ok {A B} (c : res A) (k : A -> res B) (b : B) :
  c ≫= k = Ok b -> exists a, c = Ok a /\ k a = Ok b.
Proof. destruct c as [a|e]; [eauto | discriminate]. Qed.

Ltac inv_bind H :=
  let x := fresh "x" in
  let Hx := fresh "Hx" in
  apply bind_Ok in H; destruct H as (x & Hx & H).

(** ** The order of floats *)

Lemma fcompare_numbers (x y : pyfloat) :
  is_nan x = false -> is_nan y = false ->
  fcompare x y = Some match side x ?= side y with
                      | Eq => (finite_part x ?= finite_part y)%Q
                      | c => c
                      end.
Proof. unfold fcompare. now intros -> ->. Qed.

Lemma fcompare_nan (x y : pyfloat) :
  (is_nan x || is_nan y)%bool = true -> fcompare x y = None.
Proof. unfold fcompare. now intros ->. Qed.

Lemma flt_iff (x y : pyfloat) :
  flt x y = true <->
  is_nan x = false /\ is_nan y = false /\
  (side x < side y \/ side x = side y /\ (finite_part x < finite_part y)%Q).
Proof.
  unfold flt, fcompare.
  destruct (is_nan x), (is_nan y); simpl;
    try (split; [discriminate | intros (? & ? & _); discriminate]).
  destruct (Z.compare_spec (side x) (side y)) as [E|E|E].
  - destruct (finite_part x ?= finite_part y)%Q eqn:C.
    + apply Qeq_alt in C. split; [discriminate|].
      intros (_ & _ & [?|[_ ?]]); [lia | lra].
    + apply Qlt_alt in C. split; [auto|reflexivity].
    + apply Qgt_alt in C. split; [discriminate|].
      intros (_ & _ & [?|[_ ?]]); [lia | lra].
  - split; [auto|reflexivity].
  - split; [discriminate|]. intros (_ & _ & [?|[? _]]); lia.
Qed.

Lemma feq_iff (x y : pyfloat) :
  feq x y = true <->
  is_nan x = false /\ is_nan y = false /\
  side x = side y /\ (finite_part x == finite_part y)%Q.
Proof.
  unfold feq, fcompare.
  destruct (is_nan x), (is_nan y); simpl;
    try (split; [discriminate | intros (? & ? & _); discriminate]).
  destruct (Z.compare_spec (side x) (side y)) as [E|E|E].
  - destruct (finite_part x ?= finite_part y)%Q eqn:C.
    + apply Qeq_alt in C. split; [auto|reflexivity].
    + apply Qlt_alt in C. split; [discriminate|]. intros (_ & _ & _ & ?). lra.
    + apply Qgt_alt in C. split; [discriminate|]. intros (_ & _ & _ & ?). lra.
  - split; [discriminate|]. intros (_ & _ & ? & _). lia.
  - split; [discriminate|]. intros (_ & _ & ? & _). lia.
Qed.

Lemma fle_iff (x y : pyfloat) :
  fle x y = true <-> flt x y = true \/ feq x y = true.
Proof.
  unfold fle, flt, feq. destruct (fcompare x y) as [[]|]; intuition discriminate.
Qed.

Lemma flt_false_iff (x y : pyfloat) :
  is_nan x = false -> is_nan y = false ->
  flt x y = false <-> fle y x = true.
Proof.
  intros Hx Hy. rewrite fle_iff, feq_iff, <- not_true_iff_false, !flt_iff.
  destruct (Z.lt_total (side x) (side y)) as [?|[?|?]];
    destruct (Qlt_le_dec (finite_part x) (finite_part y));
    destruct (Qlt_le_dec (finite_part y) (finite_part x));
    intuition (try lia; try lra).
Qed.

Ltac float_order :=
  rewrite ?fle_iff, ?flt_iff, ?feq_iff in *;
  intuition (try lia; try lra).

Lemma flt_fle_trans (x y z : pyfloat) :
  flt x y = true -> fle y z = true -> flt x z = true.
Proof. intros Hxy Hyz. float_order. Qed.



Lemma flt_feq_trans (x y z : pyfloat) :
  flt x y = true -> feq y z = true -> flt x z = true.
Proof. intros Hxy Hyz. float_order. Qed.


Lemma fle_trans (x y z : pyfloat) :
  fle x y = true -> fle y z = true -> fle x z = true.
Proof. intros Hxy Hyz. float_order. Qed.

(** ** Rounding *)

Lemma nearest_even_whole (n : Z) : nearest_even n 1 = n.
Proof.
  unfold nearest_even. rewrite Z.mod_1_r, Z.div_1_r. reflexivity.
Qed.

Lemma Qred_inject_Z (z : Z) : Qred (inject_Z z) = inject_Z z.
Proof.
  unfold Qred, inject_Z.
  change (Z.pos 1) with 1.
  destruct (Z.ggcd z 1) as [g [a b]] eqn:E.
  pose proof (Z.ggcd_gcd z 1) as Hg. rewrite E in Hg. simpl in Hg.
  pose proof (Z.ggcd_correct_divisors z 1) as Hd. rewrite E in Hd.
  rewrite Z.gcd_1_r in Hg. subst g. destruct Hd as [Ha Hb].
  assert (a = z) as -> by lia. assert (b = 1) as -> by lia. reflexivity.
Qed.

Lemma Qred_whole (z k : Z) :
  0 <= k -> Qred (Qmake (z * 2 ^ k) (Z.to_pos (2 ^ k))) = inject_Z z.
Proof.
  intros Hk. rewrite <- (Qred_inject_Z z).
  apply Qred_complete. unfold Qeq, inject_Z. simpl.
  rewrite Z2Pos.id by (apply Z.pow_pos_nonneg; lia). lia.
Qed.

Lemma binade_whole (n : Z) : 0 < n -> binade n 1 = Z.log2 n.
Proof.
  intros Hn. unfold binade, scaled. change (Z.log2 1) with 0. rewrite Z.sub_0_r.
  pose proof (Z.log2_nonneg n) as Hl.
  pose proof (Z.log2_spec n Hn) as [Hlo _].
  destruct (Z.leb_spec 0 (- Z.log2 n)).
  - assert (Z.log2 n = 0) as E by lia. rewrite E in *.
    change (- 0) with 0. rewrite Z.pow_0_r, Z.mul_1_r.
    destruct (Z.ltb_spec n 1); [lia | reflexivity].
  - rewrite Z.opp_involutive, Z.mul_1_l.
    destruct (Z.ltb_spec n (2 ^ Z.log2 n)); [lia | reflexivity].
Qed.

(** An integer of at most 53 bits is a double: [float] is exact on it. *)
Lemma float_of_small_int (z : Z) :
  Z.abs z < 2 ^ 53 -> float_of_int z = Ok (Finite (inject_Z z)).
Proof.
  intros Hz. unfold float_of_int, double_of_Q.
  cbn [Qnum Qden inject_Z]. change (Z.pos 1) with 1.
  destruct (Z.eqb_spec (Z.abs z) 0) as [E|E].
  - assert (z = 0) as -> by lia. reflexivity.
  - assert (0 < Z.abs z) as Hn by lia.
    rewrite (binade_whole _ Hn).
    pose proof (Z.log2_nonneg (Z.abs z)) as Hl.
    assert (Z.log2 (Z.abs z) < 53) as Hl' by (apply Z.log2_lt_pow2; lia).
    rewrite Z.max_l by lia.
    set (k := 52 - Z.log2 (Z.abs z)).
    replace (Z.log2 (Z.abs z) - 52) with (- k) by (unfold k; lia).
    assert (0 <= k) as Hk by (unfold k; lia).
    unfold scaled. rewrite Z.opp_involutive.
    destruct (Z.leb_spec 0 k); [|lia].
    rewrite nearest_even_whole.
    assert (0 < 2 ^ k) as Hpow by (apply Z.pow_pos_nonneg; lia).
    destruct (Z.eqb_spec (Z.abs z * 2 ^ k) 0) as [E0|_]; [nia|].
    rewrite Z.log2_mul_pow2 by lia.
    destruct (Z.ltb_spec 1024 (k + Z.log2 (Z.abs z) + - k + 1)) as [?|_]; [lia|].
    clearbody k.
    destruct (Z.leb_spec 0 (- k)) as [Hk0|Hk0].
    + assert (k = 0) as -> by lia. change (- 0) with 0.
      rewrite !Z.pow_0_r, !Z.mul_1_r, Qred_inject_Z.
      destruct (Z.ltb_spec z 0).
      * replace (- Z.abs z) with z by lia. reflexivity.
      * replace (Z.abs z) with z by lia. reflexivity.
    + destruct (Z.ltb_spec z 0).
      * rewrite <- Z.mul_opp_l, Qred_whole by lia.
        replace (- Z.abs z) with z by lia. reflexivity.
      * rewrite Qred_whole by lia.
        replace (Z.abs z) with z by lia. reflexivity.
Qed.

(** Beyond 53 bits [float] rounds to the nearest double, to the even one
    of two, and it raises from 2^1024 - 2^970 on. *)
Lemma float_of_large_int :
  float_of_int (2 ^ 53 + 1) = Ok (Finite (inject_Z (2 ^ 53))) /\
  float_of_int (2 ^ 53 + 3) = Ok (Finite (inject_Z (2 ^ 53 + 4))) /\
  float_of_int (2 ^ 1024 - 2 ^ 970 - 1) = Ok (Finite (inject_Z (2 ^ 1024 - 2 ^ 971))) /\
  float_of_int (2 ^ 1024 - 2 ^ 970) = Raise OverflowError /\
  float_of_int (- 2 ^ 1024) = Raise OverflowError.
Proof. repeat split; vm_compute; reflexivity. Qed.

(** The rounding agrees with the Standard Library's model of IEEE 754
    arithmetic: on integers with its rounding of an integer, on quotients
    of two doubles with its division. *)
Lemma double_of_Q_agrees :
  Forall (fun z => double_of_Q (inject_Z z) = float_of_spec (IEEE_of_Z z))
    integer_samples /\
  Forall (fun x => double_of_Q (Qmake x.1 (Z.to_pos x.2))
                   = float_of_spec (IEEE_quotient x.1 x.2))
    quotient_samples.
Proof.
  split; repeat constructor; vm_compute; reflexivity.
Qed.

(** Not-a-number passes the clamp [min(max(x, 0), 100)]. *)
Lemma clamp_nan : py_min (py_max NaN 0%Q) 100%Q = NaN.
Proof. reflexivity. Qed.

(** Every other float lands in the closed interval. *)
Lemma clamp_range (x : pyfloat) :
  is_nan x = false ->
  fle 0%Q (py_min (py_max x 0%Q) 100%Q) = true /\
  fle (py_min (py_max x 0%Q) 100%Q) 100%Q = true.
Proof.
  intros Hx. unfold py_min, py_max.
  destruct (flt x 0%Q) eqn:E0.
  - split; reflexivity.
  - apply flt_false_iff in E0; [|assumption|reflexivity].
    destruct (flt 100%Q x) eqn:E1.
    + split; reflexivity.
    + apply flt_false_iff in E1; [|reflexivity|assumption]. split; assumption.
Qed.

(** The cases of the clamp. *)
Lemma clamp_cases (x : pyfloat) :
  (flt x 0%Q = true -> py_min (py_max x 0%Q) 100%Q = 0%Q) /\
  (flt 100%Q x = true -> py_min (py_max x 0%Q) 100%Q = 100%Q) /\
  (fle 0%Q x = true -> fle x 100%Q = true -> py_min (py_max x 0%Q) 100%Q = x) /\
  (is_nan x = true -> py_min (py_max x 0%Q) 100%Q = x).
Proof.
  unfold py_min, py_max. repeat split.
  - intros Hlt. now rewrite Hlt.
  - intros Hgt.
    assert (flt x 0%Q = false) as ->.
    { apply not_true_iff_false. intros Hlt.
      assert (flt 100%Q 0%Q = true) as Habs
        by (eapply flt_fle_trans; [exact Hgt | apply fle_iff; now left]).
      discriminate. }
    now rewrite Hgt.
  - intros Hlo Hhi.
    assert (is_nan x = false) as Hx by (apply fle_iff in Hlo; float_order).
    apply flt_false_iff in Hlo; [|assumption|reflexivity]. rewrite Hlo.
    apply flt_false_iff in Hhi; [|reflexivity|assumption]. now rewrite Hhi.
  - now destruct x.
Qed.

(** [or] keeps a non-empty left operand. *)
Lemma por_truthy (a b : value) : truthy a = true -> a or' b = a.
Proof. unfold por. intros ->. reflexivity. Qed.

Lemma por_falsy (a b : value) : truthy a = false -> a or' b = b.
Proof. unfold por. intros ->. reflexivity. Qed.

Lemma get_Some (d : gmap string value) k v : d !! k = Some v -> get d k = v.
Proof. unfold get. intros ->. reflexivity. Qed.

Lemma get_or_Some (d : gmap string value) k v dflt :
  d !! k = Some v -> get_or d k dflt = v.
Proof. unfold get_or. intros ->. reflexivity. Qed.

Lemma get_None (d : gmap string value) k : d !! k = None -> get d k = VNone.
Proof. unfold get. intros ->. reflexivity. Qed.

Lemma get_or_None (d : gmap string value) k dflt :
  d !! k = None -> get_or d k dflt = dflt.
Proof. unfold get_or. intros ->. reflexivity. Qed.

Lemma as_dict_record_of (v : value) d :
  as_dict (v or' VDict ∅) = Ok d -> record_of v = d.
Proof.
  unfold record_of. destruct (v or' VDict ∅); simpl; congruence.
Qed.

Section MergeProperties.
Context `{Builtins}.

(** ** The cap correction *)

(** The cap is the double nearest to 99,999,999.99: it has 53
    significant bits with its last place at 2^-26, and lies within half
    of that of the decimal. *)
Lemma AGDP_CAP_nearest :
  AGDP_CAP = Finite (6710886399328911 # 67108864) /\
  2 ^ 52 <= 6710886399328911 < 2 ^ 53 /\
  (Qabs ((9999999999 # 100) - (6710886399328911 # 67108864)) <= 1 # 134217728)%Q.
Proof.
  split; [reflexivity|]. split; [lia|]. vm_compute. discriminate.
Qed.

(** A float is its own [float(...)]. *)
Lemma float_of_float (f : pyfloat) : float (VFloat f) = Ok f.
Proof. reflexivity. Qed.

(** C1. With [g] and [v] the floats that [float(...)] makes of the two
    inputs (the inputs themselves when they are floats), and with the
    cap the float 99,999,999.99: the corrected gross value is [v] when
    [g >= cap] and [v > cap], and [g] unchanged otherwise. *)
Theorem fix_capped_agdp_spec (gross_agdp volume : value) (g v : pyfloat) :
  float gross_agdp = Ok g ->
  float volume = Ok v ->
  AGDP_CAP = Finite (6710886399328911 # 67108864) /\
  (fle AGDP_CAP g = true /\ flt AGDP_CAP v = true ->
     _fix_capped_agdp gross_agdp volume = Ok v) /\
  (~ (fle AGDP_CAP g = true /\ flt AGDP_CAP v = true) ->
     _fix_capped_agdp gross_agdp volume = Ok g).
Proof.
  intros Hg Hv. split; [reflexivity|].
  unfold _fix_capped_agdp. rewrite Hg. simpl.
  destruct (fle AGDP_CAP g) eqn:Eg.
  - rewrite Hv. simpl.
    destruct (flt AGDP_CAP v) eqn:Ev.
    + split; [reflexivity|].
      intros Hn. exfalso. apply Hn. split; reflexivity.
    + split; [|reflexivity].
      intros [_ Hlt]. discriminate.
  - split; [|reflexivity].
    intros [Hle _]. discriminate.
Qed.

(** The correction reads its second input only when the first reaches
    the cap. *)
Lemma fix_capped_agdp_below (gross_agdp volume : value) (g : pyfloat) :
  float gross_agdp = Ok g -> fle AGDP_CAP g = false ->
  _fix_capped_agdp gross_agdp volume = Ok g.
Proof.
  intros Hg Hlt. unfold _fix_capped_agdp. rewrite Hg. simpl.
  rewrite Hlt. reflexivity.
Qed.

Lemma fix_capped_agdp_inv (gross_agdp volume : value) (r : pyfloat) :
  _fix_capped_agdp gross_agdp volume = Ok r ->
  exists g, float gross_agdp = Ok g /\
    (fle AGDP_CAP g = false /\ r = g \/
     exists v, float volume = Ok v /\ fle AGDP_CAP g = true /\
       (flt AGDP_CAP v = true /\ r = v \/ flt AGDP_CAP v = false /\ r = g)).
Proof.
  unfold _fix_capped_agdp. intros Hr.
  inv_bind Hr. exists x. split; [assumption|].
  destruct (fle AGDP_CAP x) eqn:Eg.
  - right. inv_bind Hr. exists x0. split; [assumption|].
    split; [reflexivity|].
    destruct (flt AGDP_CAP x0) eqn:Ev.
    + left. split; congruence.
    + right. split; congruence.
  - left. split; congruence.
Qed.

(** ** The merge *)

Ltac merge_inv H :=
  unfold _merge_agent in H;
  repeat (let x := fresh "x" in
          let Hx := fresh "Hx" in
          apply bind_Ok in H; destruct H as (x & Hx & H));
  injection H as <-; cbn [success_rate volume gross_agdp revenue total_jobs
    successful_jobs unique_active_wallets unique_buyers online_status
    last_active_at category role cluster rank].

(** The success rate of a merged record is the clamp of the float the
    first non-empty raw value denotes. *)
Lemma merge_success_rate_clamped (rk : Z) (l : gmap string value) (m d : value)
    (a : AgentData) :
  _merge_agent rk l m d = Ok a ->
  exists x,
    float (get (record_of m) "successRate" or' get (record_of d) "successRate"
           or' get_or l "successRate" (VInt 0) or' VInt 0) = Ok x /\
    success_rate a = py_min (py_max x 0%Q) 100%Q.
Proof.
  intros Hm. merge_inv Hm.
  apply as_dict_record_of in Hx, Hx1. subst x x1.
  exists x4. split; [assumption | reflexivity].
Qed.


Lemma as_dict_por_dict (md x : gmap string value) :
  as_dict (VDict md or' VDict ∅) = Ok x -> x = md.
Proof.
  unfold por. simpl. destruct (Nat.eqb (size md) 0) eqn:E; simpl.
  - apply Nat.eqb_eq in E. apply map_size_empty_inv in E.
    intros [= <-]. now subst.
  - now intros [= <-].
Qed.

(** C3, as the code has it.  A value of the metrics record that is not
    empty (not zero, not [None], not an empty text or container) is
    taken as it is for volume, revenue, the job counts and the buyer
    counts, whatever the other records hold.  An empty one counts as
    absent: the field falls through to the detail record and then to the
    list record, and is 0 when these do not supply its fallbacks.  The
    gross value is the float the metrics value denotes, except that the
    cap correction replaces it by the float of the merged volume when it
    reaches the cap and the volume exceeds the cap. *)
Theorem merge_metrics_fields (rk : Z) (l md : gmap string value) (d : value)
    (a : AgentData) :
  _merge_agent rk l (VDict md) d = Ok a ->
  let dd := record_of d in
  (forall v, md !! "volume" = Some v ->
     (truthy v = true -> volume a = v) /\
     (truthy v = false ->
        volume a = get_or l "grossAgenticAmount" (VInt 0) or' VInt 0) /\
     (truthy v = false -> l !! "grossAgenticAmount" = None -> volume a = VInt 0)) /\
  (forall v, md !! "revenue" = Some v ->
     (truthy v = true -> revenue a = v) /\
     (truthy v = false -> revenue a = VInt 0)) /\
  (forall v, md !! "successfulJobCount" = Some v ->
     (truthy v = true -> total_jobs a = v /\ successful_jobs a = v) /\
     (truthy v = false ->
        total_jobs a = get dd "transactionCount"
                       or' get_or l "transactionCount" (VInt 0) or' VInt 0 /\
        successful_jobs a = get dd "successfulJobCount"
                            or' get_or l "successfulJobCount" (VInt 0) or' VInt 0) /\
     (truthy v = false ->
        dd !! "transactionCount" = None -> l !! "transactionCount" = None ->
        total_jobs a = VInt 0) /\
     (truthy v = false ->
        dd !! "successfulJobCount" = None -> l !! "successfulJobCount" = None ->
        successful_jobs a = VInt 0) /\
     (forall w, truthy v = false -> dd !! "successfulJobCount" = Some w ->
        truthy w = true -> successful_jobs a = w)) /\
  (forall v, md !! "uniqueBuyerCount" = Some v ->
     (truthy v = true -> unique_active_wallets a = v /\ unique_buyers a = v) /\
     (truthy v = false ->
        unique_buyers a = get dd "uniqueBuyerCount"
                          or' get_or l "uniqueBuyerCount" (VInt 0) or' VInt 0 /\
        unique_active_wallets a = unique_buyers a) /\
     (truthy v = false ->
        dd !! "uniqueBuyerCount" = None -> l !! "uniqueBuyerCount" = None ->
        unique_active_wallets a = VInt 0 /\ unique_buyers a = VInt 0) /\
     (forall w, truthy v = false -> dd !! "uniqueBuyerCount" = Some w ->
        truthy w = true -> unique_active_wallets a = w /\ unique_buyers a = w)) /\
  (forall v, md !! "grossAgenticAmount" = Some v ->
     (truthy v = true ->
        exists g, float v = Ok g /\
          (fle AGDP_CAP g = false -> gross_agdp a = g) /\
          (forall vol, float (volume a) = Ok vol -> flt AGDP_CAP vol = false ->
             gross_agdp a = g) /\
          (forall vol, float (volume a) = Ok vol ->
             fle AGDP_CAP g = true -> flt AGDP_CAP vol = true ->
             gross_agdp a = vol)) /\
     (truthy v = false -> l !! "grossAgenticAmount" = None ->
        gross_agdp a = 0%Q)).
Proof.
  intros Hm dd. subst dd. merge_inv Hm.
  apply as_dict_por_dict in Hx1. subst x1.
  apply as_dict_record_of in Hx. subst x.
  split; [|split; [|split; [|split]]].
  - intros v Hv. rewrite (get_Some _ _ _ Hv). split; [|split].
    + intros Ht. now rewrite !(por_truthy v) by assumption.
    + intros Ht. now rewrite (por_falsy v) by assumption.
    + intros Ht Hl. rewrite (get_or_None _ _ _ Hl).
      now rewrite (por_falsy v) by assumption.
  - intros v Hv. rewrite (get_or_Some _ _ _ _ Hv). split; intros Ht.
    + now apply por_truthy.
    + now apply por_falsy.
  - intros v Hv. rewrite !(get_Some _ _ _ Hv). split; [|split; [|split; [|split]]].
    + intros Ht. now rewrite !(por_truthy v) by assumption.
    + intros Ht. now rewrite !(por_falsy v) by assumption.
    + intros Ht Hd Hl. rewrite (get_None _ _ Hd), (get_or_None _ _ _ Hl).
      now rewrite (por_falsy v) by assumption.
    + intros Ht Hd Hl. rewrite (get_None _ _ Hd), (get_or_None _ _ _ Hl).
      now rewrite (por_falsy v) by assumption.
    + intros w Ht Hd Hw. rewrite (get_Some _ _ _ Hd).
      rewrite (por_falsy v) by assumption.
      now rewrite !(por_truthy w) by assumption.
  - intros v Hv. rewrite !(get_Some _ _ _ Hv). split; [|split; [|split]].
    + intros Ht. now rewrite !(por_truthy v) by assumption.
    + intros Ht. now rewrite !(por_falsy v) by assumption.
    + intros Ht Hd Hl. rewrite (get_None _ _ Hd), (get_or_None _ _ _ Hl).
      now rewrite (por_falsy v) by assumption.
    + intros w Ht Hd Hw. rewrite (get_Some _ _ _ Hd).
      rewrite (por_falsy v) by assumption.
      now rewrite !(por_truthy w) by assumption.
  - intros v Hv. rewrite (get_Some _ _ _ Hv) in Hx3. split.
    + intros Ht. rewrite !(por_truthy v) in Hx3 by assumption.
      apply fix_capped_agdp_inv in Hx3.
      destruct Hx3 as (g & Hg & Hcases). exists g. split; [assumption|].
      destruct Hcases as [[Hlt ->] | (vol & Hvol & Hle & [[Hgt ->] | [Hno ->]])].
      * split; [reflexivity|]. split; [reflexivity|].
        intros vol _ Hle _. congruence.
      * split; [intros Hlt; congruence|].
        split.
        -- intros vol' Hvol' Hle'. rewrite Hvol in Hvol'. injection Hvol' as <-.
           congruence.
        -- intros vol' Hvol' _ _. rewrite Hvol in Hvol'. now injection Hvol' as <-.
      * split; [reflexivity|]. split; [reflexivity|].
        intros vol' Hvol' _ Hgt. rewrite Hvol in Hvol'. injection Hvol' as <-.
        congruence.
    + intros Ht Hl. rewrite (get_or_None _ _ _ Hl) in Hx3.
      rewrite (por_falsy v) in Hx3 by assumption.
      vm_compute in Hx3. now injection Hx3 as <-.
Qed.

(** [strip] removes white space of every kind from both ends, and only
    there; the zero-width space is not white space. *)
Lemma strip_samples :
  strip (ideographic_space ++ " TRADING" ++ no_break_space ++ next_line) = "TRADING" /\
  strip (String "009" (String "010" "a  b" ++ String "013" (String "031" ""))) = "a  b" /\
  strip (" " ++ ideographic_space) = "" /\
  strip (zero_width_space ++ " x") = zero_width_space ++ " x" /\
  strip "交易 " = "交易".
Proof. repeat split. Qed.

(** [startswith] is the prefix test. *)
Lemma startswith_app (p rest : string) : startswith (p ++ rest) p = true.
Proof.
  unfold startswith. induction p as [|c p IH]; simpl.
  - now destruct rest.
  - destruct (ascii_dec c c); [exact IH | congruence].
Qed.

(** C7. The merge resolves the last-active timestamp to a string.  When
    it begins with "2999" the record is online and shows the
    always-online text instead of the timestamp; otherwise, and when no
    source has a timestamp, the record is offline and shows the
    timestamp as it is. *)
Theorem merge_online_status (rk : Z) (l : gmap string value) (m d : value)
    (a : AgentData) :
  _merge_agent rk l m d = Ok a ->
  exists ts,
    resolve_last_active l (record_of m) (record_of d) = VStr ts /\
    (startswith ts "2999" = true ->
       online_status a = "在线" /\ last_active_at a = "始终在线") /\
    (startswith ts "2999" = false ->
       online_status a = "离线" /\ last_active_at a = ts) /\
    (record_of m !! "lastActiveAt" = None ->
     record_of d !! "lastActiveAt" = None ->
     l !! "lastActiveAt" = None ->
       ts = "" /\ online_status a = "离线" /\ last_active_at a = "").
Proof.
  intros Hm. merge_inv Hm.
  apply as_dict_record_of in Hx, Hx1. subst x x1.
  destruct (resolve_last_active l (record_of m) (record_of d)) eqn:Ets;
    try discriminate.
  injection Hx2 as <-. exists s. split; [reflexivity|].
  split; [|split].
  - intros ->. split; reflexivity.
  - intros ->. split; reflexivity.
  - intros Hmn Hdn Hln. unfold resolve_last_active in Ets.
    rewrite (get_None _ _ Hmn), (get_None _ _ Hdn), (get_None _ _ Hln) in Ets.
    injection Ets as <-. repeat split.
Qed.

(** C8, as the code has it.  The resolved code is turned into text and
    stripped of surrounding whitespace, and the cluster text "None"
    becomes the empty code.  The merged field is the table's label when
    this normalised code is a key of the table, and the normalised code
    itself when it is not. *)
Theorem merge_code_translation (rk : Z) (l : gmap string value) (m d : value)
    (a : AgentData) :
  _merge_agent rk l m d = Ok a ->
  let cat := strip (py_str (resolve_category l (record_of d))) in
  let rol := strip (py_str (resolve_role l (record_of d))) in
  let clu := strip (py_str (resolve_cluster l (record_of d))) in
  let clu := if String.eqb clu "None" then "" else clu in
  (forall label, CATEGORY_CN !! cat = Some label -> category a = label) /\
  (CATEGORY_CN !! cat = None -> category a = cat) /\
  (forall label, ROLE_CN !! rol = Some label -> role a = label) /\
  (ROLE_CN !! rol = None -> role a = rol) /\
  (forall label, CLUSTER_CN !! clu = Some label -> cluster a = label) /\
  (CLUSTER_CN !! clu = None -> cluster a = clu).
Proof.
  intros Hm. merge_inv Hm.
  apply as_dict_record_of in Hx. subst x.
  unfold translate.
  repeat split; intros; match goal with E : _ !! _ = _ |- _ => now rewrite E end.
Qed.

(** For a code that is a string without surrounding whitespace (and, for
    the cluster, not "None"), the translation is the table's label or
    the code itself. *)
Corollary trimmed_code_passes_through (rk : Z) (l : gmap string value)
    (m d : value) (a : AgentData) (c : string) :
  _merge_agent rk l m d = Ok a ->
  strip c = c ->
  (resolve_category l (record_of d) = VStr c ->
     category a = default c (CATEGORY_CN !! c)) /\
  (resolve_role l (record_of d) = VStr c ->
     role a = default c (ROLE_CN !! c)) /\
  (resolve_cluster l (record_of d) = VStr c -> c <> "None" ->
     cluster a = default c (CLUSTER_CN !! c)).
Proof.
  intros Hm Hc. merge_inv Hm.
  apply as_dict_record_of in Hx. subst x.
  unfold translate.
  repeat split.
  - intros ->. simpl. now rewrite Hc.
  - intros ->. simpl. now rewrite Hc.
  - intros -> Hne. simpl. rewrite Hc.
    destruct (String.eqb c "None") eqn:E; [|reflexivity].
    apply String.eqb_eq in E. contradiction.
Qed.

End MergeProperties.

(** ** The retry loop *)

Section RetryProperties.
Variable self : ACPScraper.
Variable net : Z -> response.

Lemma failed_step (n : Z) (todo : nat) (k : Z) :
  failed (net k) = true ->
  get_loop n net (S todo) k =
    ((get_loop n net todo (k + 1)).1,
     (failed_attempt n k ++ (get_loop n net todo (k + 1)).2)%list).
Proof.
  intros Hf. simpl. unfold failed_attempt.
  destruct (get_loop n net todo (k + 1)) as [r tr]. simpl.
  destruct (net k) as [st body|]; [|reflexivity].
  destruct st as [|p|p]; try reflexivity.
  do 8 (destruct p as [p|p|]; try reflexivity).
  destruct body; [discriminate Hf | reflexivity].
Qed.

Lemma get_loop_all_failed (n : Z) (todo : nat) (k : Z) :
  (forall i, k <= i < k + Z.of_nat todo -> failed (net i) = true) ->
  get_loop n net todo k =
    (VNone, mjoin (failed_attempt n <$> seqZ k (Z.of_nat todo))).
Proof.
  revert k. induction todo as [|todo IH]; intros k Hall.
  - reflexivity.
  - rewrite failed_step by (apply Hall; lia).
    rewrite IH by (intros i Hi; apply Hall; lia).
    rewrite (seqZ_cons k (Z.of_nat (S todo))) by lia.
    replace (Z.pred (Z.of_nat (S todo))) with (Z.of_nat todo) by lia.
    reflexivity.
Qed.

Lemma sends_app (tr1 tr2 : list get_event) :
  sends (tr1 ++ tr2) = (sends tr1 ++ sends tr2)%list.
Proof. apply omap_app. Qed.

Lemma sleeps_app (tr1 tr2 : list get_event) :
  sleeps (tr1 ++ tr2) = (sleeps tr1 ++ sleeps tr2)%list.
Proof. apply omap_app. Qed.

Lemma sends_failed_attempts (n : Z) (ks : list Z) :
  sends (mjoin (failed_attempt n <$> ks)) = ks.
Proof.
  induction ks as [|k ks IH]; [reflexivity|].
  rewrite fmap_cons. change (mjoin (?x :: ?xs)) with (x ++ mjoin xs)%list.
  rewrite sends_app, IH. unfold failed_attempt.
  now destruct (k <? n - 1).
Qed.

Lemma sleeps_failed_attempts (n : Z) (ks : list Z) :
  sleeps (mjoin (failed_attempt n <$> ks)) =
    (fun k => 2 ^ k) <$> filter (fun k => k < n - 1) ks.
Proof.
  induction ks as [|k ks IH]; [reflexivity|].
  rewrite fmap_cons. change (mjoin (?x :: ?xs)) with (x ++ mjoin xs)%list.
  rewrite sleeps_app, IH, filter_cons. unfold failed_attempt.
  destruct (Z.ltb_spec k (n - 1)); case_decide; try lia; reflexivity.
Qed.

Lemma filter_none {A} (P : A -> Prop) `{forall x, Decision (P x)} (l : list A) :
  Forall (fun x => ~ P x) l -> filter P l = [].
Proof.
  induction 1 as [|x l Hx _ IH]; [reflexivity|].
  rewrite filter_cons. now case_decide.
Qed.

Lemma filter_seqZ_below (k len b : Z) :
  0 <= len -> k <= b <= k + len ->
  filter (fun i => i < b) (seqZ k len) = seqZ k (b - k).
Proof.
  intros Hlen. revert k.
  pattern len. apply natlike_ind; [| |exact Hlen]; clear len Hlen.
  - intros k Hb. replace (b - k) with 0 by lia. reflexivity.
  - intros len Hlen IH k Hb.
    rewrite (seqZ_cons k) by lia.
    replace (Z.pred (Z.succ len)) with len by lia.
    rewrite filter_cons. case_decide.
    + rewrite IH by lia. rewrite (seqZ_cons k (b - k)) by lia.
      f_equal. f_equal. lia.
    + replace (b - k) with 0 by lia.
      rewrite (seqZ_nil k 0) by lia.
      apply filter_none, Forall_forall.
      intros i Hi. apply elem_of_seqZ in Hi. lia.
Qed.

(** C5. A fetch whose every attempt fails returns [None] after the
    attempts 0, 1, ..., [max_retries - 1] and no other; after attempt [k]
    it sleeps [2^k] seconds, except after the last one.  The result is a
    value: no exception leaves [_get]. *)
Theorem get_exhausts_retries :
  0 <= max_retries self ->
  (forall k, 0 <= k < max_retries self -> failed (net k) = true) ->
  let n := max_retries self in
  (_get self net).1 = VNone /\
  (_get self net).2 = mjoin (failed_attempt n <$> seqZ 0 n) /\
  sends (_get self net).2 = seqZ 0 n /\
  Z.of_nat (length (sends (_get self net).2)) = n /\
  sleeps (_get self net).2 = (fun k => 2 ^ k) <$> seqZ 0 (n - 1).
Proof.
  intros Hn Hall n. unfold _get. fold n.
  rewrite get_loop_all_failed by (intros i Hi; apply Hall; lia).
  rewrite Z2Nat.id by exact Hn. simpl.
  split; [reflexivity|]. split; [reflexivity|].
  rewrite sends_failed_attempts, sleeps_failed_attempts.
  split; [reflexivity|]. split.
  - rewrite length_seqZ. lia.
  - destruct (Z.eq_dec n 0) as [E|E].
    + rewrite E. reflexivity.
    + rewrite filter_seqZ_below by lia. do 2 f_equal. lia.
Qed.

End RetryProperties.

(** ** The pagination walker *)

Section WalkProperties.
Variable self : ACPScraper.
Variable net : request -> Z -> response.

(** A page whose every attempt fails is the empty batch. *)
Lemma failed_page_is_empty (page page_size : Z) :
  (forall k, 0 <= k < max_retries self ->
     failed (net (MetricsAgents page page_size) k) = true) ->
  fetch_metrics_leaderboard self net page page_size = Ok (VList []).
Proof.
  intros Hall. unfold fetch_metrics_leaderboard, _get.
  rewrite get_loop_all_failed; [reflexivity|].
  intros i Hi. apply Hall. lia.
Qed.

(** One turn of the loop on a page that is full. *)
Lemma pages_loop_full (fuel : nat) (acc batch : list value) (page : Z) :
  fetch_metrics_leaderboard self net page 100 = Ok (VList batch) ->
  100 <= Z.of_nat (length batch) ->
  pages_loop self net (S fuel) acc page 100 =
    '(r, tr) ← pages_loop self net fuel (acc ++ batch) (page + 1) 100;
    Some (r, Fetched page 100 :: Slept (delay self) :: tr).
Proof.
  intros Hfetch Hlen. simpl. rewrite Hfetch.
  destruct batch as [|x batch]; [simpl in Hlen; lia|].
  cbn [truthy negb py_iter py_len mbind res_bind].
  destruct (Z.ltb_spec (Z.of_nat (length (x :: batch))) 100); [lia|].
  reflexivity.
Qed.

(** One turn of the loop on a page that is short or empty. *)
Lemma pages_loop_short (fuel : nat) (acc batch : list value) (page : Z) :
  fetch_metrics_leaderboard self net page 100 = Ok (VList batch) ->
  Z.of_nat (length batch) < 100 ->
  pages_loop self net (S fuel) acc page 100 =
    Some (Ok (acc ++ batch)%list, [Fetched page 100]).
Proof.
  intros Hfetch Hlen. simpl. rewrite Hfetch.
  destruct batch as [|x batch].
  - simpl. now rewrite app_nil_r.
  - cbn [truthy negb py_iter py_len mbind res_bind].
    destruct (Z.ltb_spec (Z.of_nat (length (x :: batch))) 100); [|lia].
    reflexivity.
Qed.

Lemma pages_loop_stops (b : Z -> list value) (p : Z) (todo : nat) :
  forall (fuel : nat) (acc : list value) (page : Z),
  page + Z.of_nat todo = p ->
  (forall k, page <= k <= p ->
     fetch_metrics_leaderboard self net k 100 = Ok (VList (b k))) ->
  (forall k, page <= k < p -> 100 <= Z.of_nat (length (b k))) ->
  Z.of_nat (length (b p)) < 100 ->
  (todo < fuel)%nat ->
  exists tr,
    pages_loop self net fuel acc page 100 =
      Some (Ok (acc ++ concat (b <$> seqZ page (Z.of_nat (S todo))))%list, tr) /\
    fetched_pages tr = seqZ page (Z.of_nat (S todo)).
Proof.
  induction todo as [|todo IH]; intros fuel acc page Hp Hfetch Hfull Hshort Hfuel.
  - destruct fuel as [|fuel]; [lia|].
    assert (page = p) as -> by lia.
    rewrite pages_loop_short with (batch := b p) by (try apply Hfetch; lia).
    exists [Fetched p 100].
    change (seqZ p (Z.of_nat 1)) with [p]. simpl. rewrite app_nil_r.
    split; reflexivity.
  - destruct fuel as [|fuel]; [lia|].
    rewrite pages_loop_full with (batch := b page)
      by (try apply Hfetch; try apply Hfull; lia).
    destruct (IH fuel (acc ++ b page)%list (page + 1)) as (tr & Hloop & Htr);
      try lia.
    + intros k Hk. apply Hfetch. lia.
    + intros k Hk. apply Hfull. lia.
    + rewrite Hloop. simpl.
      exists (Fetched page 100 :: Slept (delay self) :: tr). split.
      * f_equal. f_equal. f_equal.
        rewrite (seqZ_cons page (Z.of_nat (S (S todo)))) by lia.
        replace (Z.pred (Z.of_nat (S (S todo)))) with (Z.of_nat (S todo)) by lia.
        rewrite fmap_cons. simpl. rewrite <- app_assoc.
        replace (Z.succ page) with (page + 1) by lia. reflexivity.
      * change (fetched_pages (Fetched page 100 :: Slept (delay self) :: tr))
          with (page :: fetched_pages tr).
        rewrite Htr.
        rewrite (seqZ_cons page (Z.of_nat (S (S todo)))) by lia.
        replace (Z.pred (Z.of_nat (S (S todo)))) with (Z.of_nat (S todo)) by lia.
        now replace (Z.succ page) with (page + 1) by lia.
Qed.

(** C6. Let page [p] be the first one with fewer than 100 records (it
    may be empty, as a failed page is), every earlier page having at
    least 100.  Given fuel for [p] turns, the walk returns, having
    requested exactly the pages 1, ..., [p], with the records of all of
    them in order.  In particular 100 records on page 1 and none on
    page 2 give those 100 records after two requests. *)
Theorem pagination_stops_at_short_page (b : Z -> list value) (p : Z) (fuel : nat) :
  1 <= p ->
  (forall k, 1 <= k <= p ->
     fetch_metrics_leaderboard self net k 100 = Ok (VList (b k))) ->
  (forall k, 1 <= k < p -> 100 <= Z.of_nat (length (b k))) ->
  Z.of_nat (length (b p)) < 100 ->
  (Z.to_nat p <= fuel)%nat ->
  exists tr,
    fetch_all_metrics_pages self net fuel =
      Some (Ok (concat (b <$> seqZ 1 p)), tr) /\
    fetched_pages tr = seqZ 1 p /\
    ((forall k, 0 <= k < max_retries self ->
        failed (net (MetricsAgents p 100) k) = true) -> b p = []) /\
    (p = 2 -> length (b 1) = 100%nat -> b 2 = [] ->
       concat (b <$> seqZ 1 p) = b 1 /\
       length (concat (b <$> seqZ 1 p)) = 100%nat /\
       fetched_pages tr = [1; 2]).
Proof.
  intros Hp Hfetch Hfull Hshort Hfuel.
  destruct (pages_loop_stops b p (Z.to_nat (p - 1)) fuel [] 1)
    as (tr & Hloop & Htr); try assumption; try lia.
  replace (Z.of_nat (S (Z.to_nat (p - 1)))) with p in * by lia.
  exists tr. unfold fetch_all_metrics_pages.
  split; [exact Hloop|]. split; [exact Htr|]. split.
  - intros Hall. apply failed_page_is_empty in Hall.
    rewrite Hfetch in Hall by lia. now injection Hall.
  - intros -> Hlen H2. rewrite Htr.
    change (seqZ 1 2) with [1; 2]. simpl. rewrite H2, app_nil_r.
    repeat split. exact Hlen.
Qed.

End WalkProperties.

(** ** The configuration loader *)

Section ConfigProperties.
Context `{Builtins}.

(** C9, as the code has it.  A missing file gives the empty
    configuration, and a file that parses gives its document, or the
    empty configuration when the document is empty.  An error of the
    YAML parser on a malformed file is not caught: it leaves
    [load_config]. *)
Theorem load_config_outcomes (fs : string -> res string) (path : string) :
  (fs path = Raise FileNotFoundError -> load_config fs path = Ok (VDict ∅)) /\
  (forall text v, fs path = Ok text -> yaml_safe_load text = Ok v ->
     load_config fs path = Ok (v or' VDict ∅)) /\
  (forall text, fs path = Ok text -> yaml_safe_load text = Ok VNone ->
     load_config fs path = Ok (VDict ∅)) /\
  (forall text, fs path = Ok text -> yaml_safe_load text = Raise YAMLError ->
     load_config fs path = Raise YAMLError).
Proof.
  unfold load_config. repeat split.
  - intros ->. reflexivity.
  - intros text v -> Hv. simpl. rewrite Hv. reflexivity.
  - intros text -> Hv. simpl. rewrite Hv. reflexivity.
  - intros text -> Hv. simpl. rewrite Hv. reflexivity.
Qed.

End ConfigProperties.

(** ** The ranking order *)

Lemma Forall_insert_desc (P : Z * pyfloat -> Prop) (x : Z * pyfloat)
    (l : list (Z * pyfloat)) :
  P x -> Forall P l -> Forall P (insert_desc x l).
Proof.
  intros Hx. induction 1 as [|y l Hy Hl IH]; simpl.
  - now constructor.
  - destruct (flt x.2 y.2); repeat constructor; assumption.
Qed.

Lemma Forall_sorted_desc (P : Z * pyfloat -> Prop) (l : list (Z * pyfloat)) :
  Forall P l -> Forall P (sorted_desc l).
Proof.
  induction 1 as [|x l Hx Hl IH]; simpl.
  - constructor.
  - now apply Forall_insert_desc.
Qed.

Lemma insert_desc_Permutation (x : Z * pyfloat) (l : list (Z * pyfloat)) :
  insert_desc x l ≡ₚ x :: l.
Proof.
  induction l as [|y l IH]; simpl; [reflexivity|].
  destruct (flt x.2 y.2); [|reflexivity].
  rewrite IH. apply Permutation_swap.
Qed.

Lemma sorted_desc_Permutation (l : list (Z * pyfloat)) : sorted_desc l ≡ₚ l.
Proof.
  induction l as [|x l IH]; simpl; [reflexivity|].
  now rewrite insert_desc_Permutation, IH.
Qed.







Lemma all_ids_of_elem (am mm : gmap Z (gmap string value)) (aid : Z) :
  aid ∈ all_ids_of am mm <-> is_Some (am !! aid) \/ is_Some (mm !! aid).
Proof.
  unfold all_ids_of. rewrite merge_sort_Permutation, elem_of_elements.
  rewrite elem_of_union, !elem_of_dom. reflexivity.
Qed.

Lemma mapM_Ok_Forall2 {A B} (f : A -> res B) (l : list A) (ys : list B) :
  mapM f l = Ok ys -> Forall2 (fun x y => f x = Ok y) l ys.
Proof.
  revert ys. induction l as [|x l IH]; intros ys Hm.
  - injection Hm as <-. constructor.
  - cbn [mapM] in Hm. inv_bind Hm. inv_bind Hm. injection Hm as <-.
    constructor; [assumption | now apply IH].
Qed.

Lemma Forall2_zip_elem {A B} (R : A -> B -> Prop) (l : list A) (k : list B) :
  Forall2 R l k -> Forall (fun p => R p.1 p.2 /\ p.1 ∈ l) (zip l k).
Proof.
  induction 1 as [|x y l k Hxy _ IH]; simpl; constructor.
  - split; [assumption | left].
  - eapply Forall_impl; [exact IH|]. intros p [Hp Hin]. split; [assumption|].
    now right.
Qed.

Section RankingProperties.
Context `{Builtins}.


Lemma ranking_inv (src : sources) (ids : list Z) (ranked : list (Z * pyfloat)) :
  ranking src ids = Ok ranked ->
  exists qs, Forall2 (ranking_key src) ids qs /\ ranked = sorted_desc (zip ids qs).
Proof.
  unfold ranking. intros Hr. inv_bind Hr. inv_bind Hr. injection Hr as <-.
  exists x0. split; [|reflexivity].
  apply mapM_Ok_Forall2 in Hx, Hx0.
  revert x0 Hx0. induction Hx as [|aid k ids ks Hk _ IH]; intros qs Hqs.
  - inversion Hqs. constructor.
  - inversion Hqs as [|? q ? qs' Hq Hqs']; subst. constructor.
    + exists k. split; assumption.
    + now apply IH.
Qed.

(** Every entry of the ranking carries the key of its id, and the ranking
    is a rearrangement of the candidate ids. *)
Lemma ranking_entries (src : sources) (ids : list Z) (ranked : list (Z * pyfloat)) :
  ranking src ids = Ok ranked ->
  Forall (fun x => ranking_key src x.1 x.2 /\ x.1 ∈ ids) ranked /\
  ranked.*1 ≡ₚ ids.
Proof.
  intros Hr. apply ranking_inv in Hr as (qs & Hkeys & ->). split.
  - apply Forall_sorted_desc. now apply Forall2_zip_elem.
  - rewrite sorted_desc_Permutation. rewrite fst_zip; [reflexivity|].
    apply Forall2_length in Hkeys. lia.
Qed.



Variable self : ACPScraper.
Variable net : request -> Z -> response.

(** What a fan-out that returns was run on: the two id-indexed mappings
    of the records, their ids, and a semaphore with a permit whenever
    there is an id to fetch. *)
Lemma gather_sources_inv (agents_list : value) (metrics_list : list value)
    (src : sources) (all_ids : list Z) :
  gather_sources self net agents_list metrics_list = Some (Ok (src, all_ids)) ->
  exists agents,
    index_by_id metrics_list = Ok (metrics_map src) /\
    py_iter agents_list = Ok agents /\
    index_by_id agents = Ok (agents_map src) /\
    all_ids = all_ids_of (agents_map src) (metrics_map src) /\
    0 <= concurrency self /\
    (all_ids <> [] -> 0 < concurrency self).
Proof.
  unfold gather_sources, index_sources, Semaphore. intros Hg.
  destruct (index_by_id metrics_list) as [mm|e] eqn:Emm; [|discriminate].
  destruct (py_iter agents_list) as [agents|e] eqn:Eag; [|discriminate].
  cbn [mbind res_bind] in Hg.
  destruct (index_by_id agents) as [am|e] eqn:Eam; [|discriminate].
  cbn [mbind res_bind] in Hg.
  destruct (Z.ltb_spec (concurrency self) 0) as [Hneg|Hpos]; [discriminate|].
  cbn [mbind res_bind] in Hg.
  destruct (Z.eqb_spec (concurrency self) 0) as [Hzero|Hnz]; simpl in Hg.
  - case_bool_decide as Hids; [|discriminate]. simpl in Hg.
    injection Hg as <- <-. exists agents. simpl.
    repeat split; try assumption; try reflexivity. intros Hne. contradiction.
  - injection Hg as <- <-. exists agents. simpl.
    repeat split; try assumption; try reflexivity. intros _. lia.
Qed.


Lemma rank_and_merge_inv (src : sources) (all_ids : list Z) (agents : list AgentData) :
  rank_and_merge src all_ids = Ok agents ->
  exists ranked,
    ranking src all_ids = Ok ranked /\
    forall i a, agents !! i = Some a ->
      exists aid q, ranked !! i = Some (aid, q) /\
        merge_entry src (1 + Z.of_nat i) aid = Ok a.
Proof.
  unfold rank_and_merge. intros Hr. inv_bind Hr. exists x. split; [assumption|].
  apply mapM_Ok_Forall2 in Hr. intros i a Hi.
  destruct (Forall2_lookup_r _ _ _ _ _ Hr Hi) as ([rk [aid q]] & Hlook & Hmerge).
  unfold enumerate1 in Hlook. rewrite list_lookup_imap in Hlook.
  destruct (x !! i) as [[aid' q']|] eqn:E; [|discriminate].
  simpl in Hlook. injection Hlook as <- <- <-.
  exists aid', q'. split; [reflexivity | assumption].
Qed.

Lemma rank_and_merge_length (src : sources) (all_ids : list Z)
    (agents : list AgentData) (ranked : list (Z * pyfloat)) :
  rank_and_merge src all_ids = Ok agents ->
  ranking src all_ids = Ok ranked ->
  length agents = length ranked.
Proof.
  unfold rank_and_merge. intros Hr Hk. rewrite Hk in Hr. simpl in Hr.
  apply mapM_Ok_Forall2, Forall2_length in Hr.
  unfold enumerate1 in Hr. rewrite length_imap in Hr. lia.
Qed.

(** Every record of an id-indexed map carries its key as its id. *)
Lemma index_by_id_ids (records : list value) (am : gmap Z (gmap string value)) :
  index_by_id records = Ok am ->
  forall aid d, am !! aid = Some d -> d !! "id" = Some (VInt aid).
Proof.
  unfold index_by_id. intros Hi. inv_bind Hi. injection Hi as <-.
  apply mapM_Ok_Forall2 in Hx.
  assert (Forall (fun e : Z * gmap string value => e.2 !! "id" = Some (VInt e.1)) x)
    as Hentries.
  { clear -Hx. induction Hx as [|a e l k Ha _ IH]; constructor; [|exact IH].
    unfold subscript_id in Ha. destruct a; try discriminate.
    destruct (d !! "id") as [[]|] eqn:E; try discriminate.
    now injection Ha as <-. }
  clear Hx.
  assert (forall acc : gmap Z (gmap string value),
    (forall aid d, acc !! aid = Some d -> d !! "id" = Some (VInt aid)) ->
    forall aid d, foldl (fun acc e => <[e.1 := e.2]> acc) acc x !! aid = Some d ->
      d !! "id" = Some (VInt aid)) as Hfold.
  { induction Hentries as [|e l He _ IH]; intros acc Hacc; [exact Hacc|].
    simpl. apply IH. intros aid d Hlook.
    apply lookup_insert_Some in Hlook as [[<- <-] | [_ Hlook]];
      [exact He | now apply Hacc]. }
  apply Hfold. intros aid d Hlook. now rewrite lookup_empty in Hlook.
Qed.

(** The merged record of a non-zero id carries that id. *)
Lemma merge_entry_agent_id (fuel : nat) (src : sources) (all_ids : list Z)
    (rk aid : Z) (a : AgentData) :
  run_sources self net fuel src all_ids ->
  merge_entry src rk aid = Ok a ->
  aid <> 0 ->
  agent_id a = VInt aid.
Proof.
  intros (al & ml & tr & _ & _ & Hg) Hm Hne.
  assert (forall d, agents_map src !! aid = Some d -> d !! "id" = Some (VInt aid))
    as Hid.
  { apply gather_sources_inv in Hg as (agents & _ & _ & Ham & _).
    intros d. now apply index_by_id_ids with (1 := Ham). }
  unfold merge_entry in Hm.
  assert (default {["id" := VInt aid]} (agents_map src !! aid) !! "id"
          = Some (VInt aid)) as Hl.
  { destruct (agents_map src !! aid) as [d|]; simpl.
    - now apply Hid.
    - apply lookup_singleton_eq. }
  unfold _merge_agent in Hm.
  repeat (let x := fresh "x" in
          let Hx := fresh "Hx" in
          apply bind_Ok in Hm; destruct Hm as (x & Hx & Hm)).
  injection Hm as <-. cbn [agent_id].
  rewrite (get_Some _ _ _ Hl). apply por_truthy. simpl.
  destruct (Z.eqb_spec aid 0); [contradiction | reflexivity].
Qed.

(** What a scrape run that returns was computed from. *)
Lemma scrape_all_inv (now : string) (fuel : nat) (agents : list AgentData)
    (gm : GlobalMetrics) :
  scrape_all self net now fuel = Some (Ok (agents, gm)) ->
  exists src all_ids,
    run_sources self net fuel src all_ids /\
    rank_and_merge src all_ids = Ok agents /\
    total_agents gm = Z.of_nat (length all_ids).
Proof.
  unfold scrape_all, run_sources. intros Hs.
  destruct (fetch_global_metrics self net now) as [g|e]; [|discriminate].
  destruct (fetch_all_agents self net) as [agents_list|e]; [|discriminate].
  destruct (fetch_all_metrics_pages self net fuel) as [[pages tr]|];
    [|discriminate].
  simpl in Hs.
  destruct pages as [metrics_list|e]; [|discriminate].
  destruct (gather_sources self net agents_list metrics_list)
    as [[[src all_ids]|e]|] eqn:Eg; [|discriminate|discriminate].
  simpl in Hs. injection Hs as Hs.
  inv_bind Hs. injection Hs as <- <-.
  exists src, all_ids. split; [|split; [assumption | reflexivity]].
  exists agents_list, metrics_list, tr. auto.
Qed.



End RankingProperties.

(** * Examples *)

(** The cap correction on the float 99,999,999.99 itself and a volume
    above it: the volume is returned. *)
Lemma fix_capped_agdp_example :
  float (H := example_builtins) (VFloat (double_of_Q (9999999999 # 100)))
    = Ok (Finite (6710886399328911 # 67108864)) /\
  float (H := example_builtins) (VInt 200000000) = Ok (Finite 200000000) /\
  _fix_capped_agdp (H := example_builtins)
    (VFloat (double_of_Q (9999999999 # 100))) (VInt 200000000)
    = Ok (Finite 200000000).
Proof.
  split; [reflexivity|]. split; [reflexivity|].
  apply (fix_capped_agdp_spec (H := example_builtins)
           (VFloat (double_of_Q (9999999999 # 100))) (VInt 200000000)
           _ _ eq_refl eq_refl).
  split; reflexivity.
Defined.

(** C2 fails on a success rate that is not a number.  The text "nan" is
    a success rate that [float(...)] reads, as not-a-number; no
    comparison of the clamp holds of it, and the merged success rate is
    not-a-number, which is neither at least 0 nor at most 100.  A
    success rate that is the float not-a-number itself does the same,
    whatever the runtime. *)
Lemma merge_success_rate_nan :
  (exists a,
     _merge_agent (H := example_builtins) 1 bare_list nan_metrics VNone = Ok a /\
     record_of nan_metrics !! "successRate" = Some (VStr "nan") /\
     float (H := example_builtins) (VStr "nan") = Ok NaN /\
     success_rate a = NaN /\
     fle 0%Q (success_rate a) = false /\ fle (success_rate a) 100%Q = false) /\
  (forall runtime : Builtins, exists a,
     _merge_agent (H := runtime) 1 bare_list (obj [("successRate", VFloat NaN)]) VNone
       = Ok a /\
     success_rate a = NaN).
Proof.
  split.
  - eexists. split; [vm_compute; reflexivity|]. repeat split.
  - intros runtime. eexists. split.
    + unfold _merge_agent. cbn -[strip translate py_str]. reflexivity.
    + reflexivity.
Qed.

(** C3 fails for the gross value: the metrics record supplies
    100,000,000, the list and detail records supply nothing, and the
    merged gross value is the volume, 200,000,000. *)
Lemma merge_metrics_gross_capped :
  exists a,
    _merge_agent (H := example_builtins) 1 bare_list capped_metrics VNone = Ok a /\
    record_of capped_metrics !! "grossAgenticAmount" = Some (VInt 100000000) /\
    bare_list !! "grossAgenticAmount" = None /\
    float (H := example_builtins) (VInt 100000000) = Ok (Finite 100000000) /\
    gross_agdp a = Finite 200000000 /\
    feq (gross_agdp a) 100000000%Q = false.
Proof.
  eexists. split; [vm_compute; reflexivity|].
  split; [vm_compute; reflexivity|]. split; [vm_compute; reflexivity|].
  repeat split.
Defined.

(** The metrics fields of the end-to-end scenario: the volume of the
    metrics record is taken, and its missing revenue is not supplied by
    anything else. *)
Lemma merge_metrics_fields_example :
  exists a,
    _merge_agent (H := example_builtins) 1 foo_list foo_metrics VNone = Ok a /\
    volume a = VInt 60.
Proof.
  eexists. split; [vm_compute; reflexivity|].
  refine (proj1 (proj1 (merge_metrics_fields (H := example_builtins) 1 foo_list
                          (list_to_map [("id", VInt 1); ("volume", VInt 60);
                                        ("successRate", VInt 150)]) VNone _ _)
                   (VInt 60) _) _);
    vm_compute; reflexivity.
Defined.

(** An agent whose last-active timestamp is in the year 2999. *)
Lemma merge_online_status_example :
  exists a,
    _merge_agent (H := example_builtins) 1 bare_list online_metrics VNone = Ok a /\
    online_status a = "在线" /\ last_active_at a = "始终在线".
Proof.
  eexists. split; [vm_compute; reflexivity|].
  destruct (merge_online_status (H := example_builtins) 1 bare_list
              online_metrics VNone _ eq_refl) as (ts & Hts & Hon & _).
  apply Hon. vm_compute in Hts. injection Hts as <-. reflexivity.
Defined.

(** A known category in white space of several kinds, a known role, and
    an unknown cluster code. *)
Lemma merge_code_translation_example :
  exists a,
    _merge_agent (H := example_builtins) 1 bare_list VNone coded_detail = Ok a /\
    category a = "交易" /\ role a = "服务提供者" /\ cluster a = "UNKNOWN_X".
Proof.
  eexists. split; [vm_compute; reflexivity|].
  destruct (merge_code_translation (H := example_builtins) 1 bare_list VNone
              coded_detail _ eq_refl) as (Hcat & _ & Hrole & _ & _ & Hclu).
  split; [|split].
  - apply Hcat. vm_compute. reflexivity.
  - apply Hrole. vm_compute. reflexivity.
  - apply Hclu. vm_compute. reflexivity.
Defined.

(** C8 fails for the cluster code "None": it is not a key of the cluster
    table, and the merged cluster is empty instead of "None". *)
Lemma merge_cluster_none_dropped :
  exists a,
    _merge_agent (H := example_builtins) 1 bare_list VNone none_cluster_detail = Ok a /\
    resolve_cluster bare_list (record_of none_cluster_detail) = VStr "None" /\
    CLUSTER_CN !! "None" = None /\
    cluster a = "" /\ cluster a <> "None".
Proof.
  eexists. split; [vm_compute; reflexivity|].
  split; [vm_compute; reflexivity|]. split; [vm_compute; reflexivity|].
  split; [reflexivity | discriminate].
Defined.

(** Three failing attempts: sleeps of 1 and 2 seconds, none after the
    last attempt. *)
Lemma get_exhausts_retries_example :
  0 <= max_retries example_scraper /\
  (_get example_scraper dead_net).1 = VNone /\
  sends (_get example_scraper dead_net).2 = [0; 1; 2] /\
  sleeps (_get example_scraper dead_net).2 = [1; 2] /\
  last (_get example_scraper dead_net).2 = Some (EvWarn 3).
Proof.
  destruct (get_exhausts_retries example_scraper dead_net)
    as (Hres & Htr & Hsends & Hlen & Hsleeps).
  - discriminate.
  - intros k _. reflexivity.
  - split; [discriminate|]. split; [exact Hres|]. split; [exact Hsends|].
    split; [exact Hsleeps|]. reflexivity.
Defined.

(** A full first page and an empty second page: the walk stops after two
    requests with the 100 records of page 1. *)
Lemma pagination_two_pages_example :
  exists tr,
    fetch_all_metrics_pages example_scraper paged_net 2 =
      Some (Ok hundred_records, tr) /\
    length hundred_records = 100%nat /\
    fetched_pages tr = [1; 2].
Proof.
  destruct (pagination_stops_at_short_page example_scraper paged_net
              paged_batches 2 2) as (tr & Hrun & Hpages & _ & Htwo).
  - discriminate.
  - intros k Hk. assert (k = 1 \/ k = 2) as [-> | ->] by lia; reflexivity.
  - intros k Hk. assert (k = 1) as -> by lia. discriminate.
  - reflexivity.
  - apply le_n.
  - exists tr. destruct (Htwo eq_refl eq_refl eq_refl) as (Hcat & Hlen & Hreq).
    rewrite Hcat in Hrun. split; [exact Hrun|]. split; [reflexivity | exact Hreq].
Defined.




(** A missing configuration file gives the empty configuration. *)
Lemma load_config_missing_example :
  no_config_fs "config.yaml" = Raise FileNotFoundError /\
  load_config (H := example_builtins) no_config_fs "config.yaml" = Ok (VDict ∅).
Proof.
  split; [reflexivity|].
  apply (proj1 (load_config_outcomes (H := example_builtins)
                  no_config_fs "config.yaml")).
  reflexivity.
Defined.

(** C9 fails for a malformed file: the text is read, the YAML parser
    raises on it, and the error leaves [load_config]. *)
Lemma load_config_malformed_raises :
  broken_config_fs "config.yaml" = Ok "scraper: [" /\
  yaml_safe_load (Builtins := example_builtins) "scraper: [" = Raise YAMLError /\
  load_config (H := example_builtins) broken_config_fs "config.yaml"
    = Raise YAMLError /\
  load_config (H := example_builtins) broken_config_fs "config.yaml"
    <> Ok (VDict ∅).
Proof.
  repeat split. discriminate.
Defined.

(** * Further properties *)

Lemma filter_all {A} (P : A -> Prop) `{forall x, Decision (P x)} (l : list A) :
  Forall P l -> filter P l = l.
Proof.
  induction 1 as [|x l Hx _ IH]; [reflexivity|].
  rewrite filter_cons. case_decide; [now rewrite IH | contradiction].
Qed.

(** ** The retry loop, when an attempt succeeds *)

Section RetrySuccess.
Variable self : ACPScraper.
Variable net : Z -> response.

Lemma get_loop_failed_prefix (n : Z) (j : nat) :
  forall (todo : nat) (a : Z),
  (forall i, a <= i < a + Z.of_nat j -> failed (net i) = true) ->
  get_loop n net (j + todo) a =
    ((get_loop n net todo (a + Z.of_nat j)).1,
     (mjoin (failed_attempt n <$> seqZ a (Z.of_nat j))
        ++ (get_loop n net todo (a + Z.of_nat j)).2)%list).
Proof.
  induction j as [|j IH]; intros todo a Hall.
  - simpl. replace (a + Z.of_nat 0) with a by lia.
    now destruct (get_loop n net todo a).
  - change (S j + todo)%nat with (S (j + todo)).
    rewrite failed_step by (apply Hall; lia).
    rewrite IH by (intros i Hi; apply Hall; lia).
    replace (a + 1 + Z.of_nat j) with (a + Z.of_nat (S j)) by lia.
    simpl fst. simpl snd. f_equal.
    rewrite (seqZ_cons a (Z.of_nat (S j))) by lia.
    replace (Z.pred (Z.of_nat (S j))) with (Z.of_nat j) by lia.
    replace (Z.succ a) with (a + 1) by lia.
    rewrite fmap_cons. change (mjoin (?x :: ?xs)) with (x ++ mjoin xs)%list.
    now rewrite <- app_assoc.
Qed.

(** X1. When attempt [k] is the first to succeed, [_get] returns its body
    after the attempts 0, ..., [k], having slept [2^i] seconds after each
    failed attempt [i] and not at all after the success. *)
Theorem get_returns_first_success (k : Z) (body : value) :
  0 <= k < max_retries self ->
  (forall i, 0 <= i < k -> failed (net i) = true) ->
  net k = Http 200 (Ok body) ->
  (_get self net).1 = body /\
  sends (_get self net).2 = seqZ 0 (k + 1) /\
  sleeps (_get self net).2 = (fun i => 2 ^ i) <$> seqZ 0 k /\
  last (_get self net).2 = Some (EvSend k).
Proof.
  intros Hk Hfail Hok. unfold _get.
  replace (Z.to_nat (max_retries self))
    with (Z.to_nat k + S (Z.to_nat (max_retries self - k - 1)))%nat by lia.
  rewrite get_loop_failed_prefix
    by (intros i Hi; apply Hfail; lia).
  rewrite Z2Nat.id by lia. replace (0 + k) with k by lia.
  cbn [get_loop]. rewrite Hok. cbn [fst snd].
  split; [reflexivity|].
  rewrite sends_app, sleeps_app, sends_failed_attempts, sleeps_failed_attempts.
  split; [|split].
  - rewrite (seqZ_app 0 k 1) by lia. reflexivity.
  - cbn [sleeps omap]. rewrite app_nil_r. f_equal.
    apply filter_all, Forall_forall. intros i Hi.
    apply elem_of_seqZ in Hi. lia.
  - now rewrite last_snoc.
Qed.

(** X2. With a retry budget of zero or less the loop body never runs: no
    request is sent and [_get] returns [None]. *)
Theorem get_without_budget :
  max_retries self <= 0 ->
  _get self net = (VNone, []).
Proof.
  intros Hn. unfold _get. now rewrite Z2Nat.nonpos.
Qed.

End RetrySuccess.

(** ** The fetchers *)

Lemma has_data_no_data (result : value) :
  no_data result -> has_data result = Ok false.
Proof.
  intros [-> | (d & -> & Hd)]; [reflexivity|].
  unfold has_data. destruct (truthy (VDict d)); [|reflexivity].
  rewrite Hd. reflexivity.
Qed.

Lemma has_data_member (d : gmap string value) (v : value) :
  d !! "data" = Some v -> has_data (VDict d) = Ok true.
Proof.
  intros Hd. unfold has_data.
  assert (truthy (VDict d) = true) as ->.
  { simpl. destruct (Nat.eqb_spec (size d) 0) as [E|E]; [|reflexivity].
    apply map_size_empty_inv in E. subst d. now rewrite lookup_empty in Hd. }
  rewrite Hd. reflexivity.
Qed.

Section FetchProperties.
Variable self : ACPScraper.
Variable net : request -> Z -> response.

(** X3. A response without a [data] member ([None] after the retries, or
    an object that lacks the key) is no data, not an error: the list
    fetchers return the empty list, the per-agent fetchers [None], and
    the global metrics keep their defaults. *)
Theorem fetchers_default_without_data :
  (no_data (_get self (net AgentsList)).1 ->
     fetch_all_agents self net = Ok (VList [])) /\
  (forall page page_size,
     no_data (_get self (net (MetricsAgents page page_size))).1 ->
     fetch_metrics_leaderboard self net page page_size = Ok (VList [])) /\
  (forall aid, no_data (_get self (net (AgentDetail aid))).1 ->
     fetch_agent_detail self net aid = Ok VNone) /\
  (forall aid, no_data (_get self (net (AgentMetrics aid))).1 ->
     fetch_agent_metrics self net aid = Ok VNone) /\
  (forall now, no_data (_get self (net FourMetrics)).1 ->
     fetch_global_metrics self net now =
       Ok {| scrape_time := now; total_agdp_latest := VFloat 0; total_agents := 0 |}).
Proof.
  unfold fetch_all_agents, fetch_metrics_leaderboard, fetch_agent_detail,
    fetch_agent_metrics, fetch_global_metrics.
  repeat split; intros; rewrite has_data_no_data by assumption; reflexivity.
Qed.

(** X4. The agent list is measured before it is returned: a [data] member
    without a length ([null], a number, a boolean) makes
    [fetch_all_agents] raise TypeError, where [fetch_metrics_leaderboard]
    would hand the same member on. *)
Theorem fetch_all_agents_unsized_data (d : gmap string value) (v : value) :
  (_get self (net AgentsList)).1 = VDict d ->
  d !! "data" = Some v ->
  match v with VList _ | VStr _ | VDict _ => False | _ => True end ->
  fetch_all_agents self net = Raise TypeError /\
  (forall page page_size,
     (_get self (net (MetricsAgents page page_size))).1 = VDict d ->
     fetch_metrics_leaderboard self net page page_size = Ok v).
Proof.
  intros Hres Hd Hv. split.
  - unfold fetch_all_agents. rewrite Hres, (has_data_member d v Hd).
    simpl. rewrite Hd. simpl. destruct v; try contradiction; reflexivity.
  - intros page page_size Hres'. unfold fetch_metrics_leaderboard.
    rewrite Hres', (has_data_member d v Hd). simpl. now rewrite Hd.
Qed.

(** X5. The platform total is the [value] of the last point of the 7-day
    series under [data.result.GAV.7D] (0 when the point has none); it
    stays at its default when the series is missing or empty. *)
Theorem fetch_global_metrics_latest (now : string)
    (body top data gav : gmap string value) :
  (_get self (net FourMetrics)).1 = VDict body ->
  body !! "data" = Some (VDict top) ->
  top !! "result" = Some (VDict data) ->
  data !! "GAV" = Some (VDict gav) ->
  (forall points final, gav !! "7D" = Some (VList points) ->
     last points = Some (VDict final) ->
     fetch_global_metrics self net now =
       Ok {| scrape_time := now;
             total_agdp_latest := get_or final "value" (VInt 0);
             total_agents := 0 |}) /\
  (gav !! "7D" = None \/ gav !! "7D" = Some (VList []) ->
     fetch_global_metrics self net now =
       Ok {| scrape_time := now; total_agdp_latest := VFloat 0; total_agents := 0 |}).
Proof.
  intros Hres Hbody Htop Hdata.
  unfold fetch_global_metrics.
  rewrite Hres, (has_data_member body _ Hbody). simpl.
  rewrite Hbody. simpl.
  rewrite (get_or_Some _ _ _ _ Htop). simpl.
  rewrite (get_or_Some _ _ _ _ Hdata). simpl.
  split.
  - intros points final Hseries Hlast.
    rewrite (get_or_Some _ _ _ _ Hseries).
    destruct points as [|p points]; [discriminate|].
    cbn [truthy last_item]. rewrite Hlast. reflexivity.
  - intros [Hnone | Hempty].
    + now rewrite (get_or_None _ _ _ Hnone).
    + now rewrite (get_or_Some _ _ _ _ Hempty).
Qed.

End FetchProperties.

(** ** The pagination walker, beyond its last page *)

Section WalkFurther.
Variable self : ACPScraper.
Variable net : request -> Z -> response.

Lemma pages_loop_never_stops (fuel : nat) :
  forall (acc : list value) (page : Z),
  (forall k, page <= k -> exists batch,
     fetch_metrics_leaderboard self net k 100 = Ok (VList batch) /\
     100 <= Z.of_nat (length batch)) ->
  pages_loop self net fuel acc page 100 = None.
Proof.
  induction fuel as [|fuel IH]; intros acc page Hfull; [reflexivity|].
  destruct (Hfull page) as (batch & Hfetch & Hlen); [lia|].
  rewrite (pages_loop_full self net fuel acc batch page Hfetch Hlen).
  rewrite IH; [reflexivity|].
  intros k Hk. apply Hfull. lia.
Qed.

(** X6. The walk has no page limit of its own: against a source whose
    every page is full (100 records or more) it never returns, whatever
    the fuel. *)
Theorem pagination_unbounded_on_full_pages (fuel : nat) :
  (forall k, 1 <= k -> exists batch,
     fetch_metrics_leaderboard self net k 100 = Ok (VList batch) /\
     100 <= Z.of_nat (length batch)) ->
  fetch_all_metrics_pages self net fuel = None.
Proof.
  intros Hfull. unfold fetch_all_metrics_pages.
  now apply pages_loop_never_stops.
Qed.

Lemma pages_loop_trace (b : Z -> list value) (p : Z) (todo : nat) :
  forall (fuel : nat) (acc : list value) (page : Z),
  page + Z.of_nat todo = p ->
  (forall k, page <= k <= p ->
     fetch_metrics_leaderboard self net k 100 = Ok (VList (b k))) ->
  (forall k, page <= k < p -> 100 <= Z.of_nat (length (b k))) ->
  Z.of_nat (length (b p)) < 100 ->
  (todo < fuel)%nat ->
  exists r,
    pages_loop self net fuel acc page 100 =
      Some (r, (mjoin ((fun k => [Fetched k 100; Slept (delay self)])
                         <$> seqZ page (Z.of_nat todo))
                ++ [Fetched p 100])%list).
Proof.
  induction todo as [|todo IH]; intros fuel acc page Hp Hfetch Hfull Hshort Hfuel.
  - destruct fuel as [|fuel]; [lia|].
    assert (page = p) as -> by lia.
    rewrite pages_loop_short with (batch := b p) by (try apply Hfetch; lia).
    eexists. reflexivity.
  - destruct fuel as [|fuel]; [lia|].
    rewrite pages_loop_full with (batch := b page)
      by (try apply Hfetch; try apply Hfull; lia).
    destruct (IH fuel (acc ++ b page)%list (page + 1)) as (r & Hloop); try lia.
    + intros k Hk. apply Hfetch. lia.
    + intros k Hk. apply Hfull. lia.
    + rewrite Hloop. simpl. exists r. do 2 f_equal.
      rewrite (seqZ_cons page (Z.of_nat (S todo))) by lia.
      replace (Z.pred (Z.of_nat (S todo))) with (Z.of_nat todo) by lia.
      replace (Z.succ page) with (page + 1) by lia.
      reflexivity.
Qed.

Lemma walk_delays_app (tr1 tr2 : list walk_event) :
  walk_delays (tr1 ++ tr2) = (walk_delays tr1 ++ walk_delays tr2)%list.
Proof. apply omap_app. Qed.

Lemma walk_delays_pages (dl : Q) (ks : list Z) :
  walk_delays (mjoin ((fun k => [Fetched k 100; Slept dl]) <$> ks)) =
    replicate (length ks) dl.
Proof.
  induction ks as [|k ks IH]; [reflexivity|].
  rewrite fmap_cons. change (mjoin (?x :: ?xs)) with (x ++ mjoin xs)%list.
  rewrite walk_delays_app, IH. reflexivity.
Qed.

(** X7. The walk pauses for the configured delay after every full page
    and never after the page that ends it: with [p] the first short
    page, the trace is page 1, delay, page 2, delay, ..., page [p]. *)
Theorem pagination_paces_between_pages (b : Z -> list value) (p : Z) (fuel : nat) :
  1 <= p ->
  (forall k, 1 <= k <= p ->
     fetch_metrics_leaderboard self net k 100 = Ok (VList (b k))) ->
  (forall k, 1 <= k < p -> 100 <= Z.of_nat (length (b k))) ->
  Z.of_nat (length (b p)) < 100 ->
  (Z.to_nat p <= fuel)%nat ->
  exists r tr,
    fetch_all_metrics_pages self net fuel = Some (r, tr) /\
    tr = (mjoin ((fun k => [Fetched k 100; Slept (delay self)]) <$> seqZ 1 (p - 1))
            ++ [Fetched p 100])%list /\
    walk_delays tr = replicate (Z.to_nat (p - 1)) (delay self) /\
    last tr = Some (Fetched p 100).
Proof.
  intros Hp Hfetch Hfull Hshort Hfuel.
  destruct (pages_loop_trace b p (Z.to_nat (p - 1)) fuel [] 1)
    as (r & Hloop); try assumption; try lia.
  rewrite Z2Nat.id in Hloop by lia.
  eexists r, _. split; [exact Hloop|]. split; [reflexivity|]. split.
  - rewrite walk_delays_app, walk_delays_pages, length_seqZ.
    now rewrite app_nil_r.
  - now rewrite last_snoc.
Qed.

End WalkFurther.

(** ** The cap correction, applied again *)

Section MergeFurther.
Context `{Builtins}.

(** X8. The cap correction is stable: a corrected value is on the same
    side of the cap as the reported one, and correcting it again against
    the same volume changes nothing. *)
Theorem fix_capped_agdp_stable (gross_agdp volume : value) (g r : pyfloat) :
  float gross_agdp = Ok g ->
  _fix_capped_agdp gross_agdp volume = Ok r ->
  fle AGDP_CAP g = fle AGDP_CAP r /\
  _fix_capped_agdp (VFloat r) volume = Ok r.
Proof.
  intros Hg Hr. apply fix_capped_agdp_inv in Hr as (g' & Hg' & Hcases).
  rewrite Hg in Hg'. injection Hg' as <-.
  destruct Hcases as [[Hlt ->] | (v & Hv & Hle & [[Hgt ->] | [Hno ->]])].
  - split; [reflexivity|]. now apply fix_capped_agdp_below.
  - assert (fle AGDP_CAP v = true) as Hle' by (apply fle_iff; now left).
    split; [congruence|].
    unfold _fix_capped_agdp. simpl. rewrite Hle', Hv. simpl. now rewrite Hgt.
  - split; [reflexivity|].
    unfold _fix_capped_agdp. simpl. rewrite Hle, Hv. simpl. now rewrite Hno.
Qed.

(** ** Offerings *)

Lemma parse_offering_inv (j : value) (o : Offering) :
  parse_offering j = Ok o ->
  exists jd price_v2,
    j = VDict jd /\
    as_dict (get_or jd "priceV2" (VDict ∅) or' VDict ∅) = Ok price_v2 /\
    o_price o = get_or price_v2 "value" (get_or jd "price" (VInt 0)) or' VInt 0 /\
    o_requirement o =
      (let req := get_or jd "requirement" (VDict ∅) in
       let req_str := match req with VDict r => json_dumps r | _ => py_str req end in
       if String.eqb req_str "{}" then "" else req_str) /\
    o_deliverable o =
      (let dlv := get_or jd "deliverable" (VDict ∅) in
       let dlv_str := match dlv with VDict r => json_dumps r | _ => py_str dlv end in
       if String.eqb dlv_str "{}" then "" else dlv_str).
Proof.
  unfold parse_offering. intros Hp. inv_bind Hp. inv_bind Hp.
  injection Hp as <-. destruct j; try discriminate. injection Hx as ->.
  exists x, x0. repeat split. assumption.
Qed.

Lemma not_braces (s : string) : (if String.eqb s "{}" then "" else s) <> "{}".
Proof.
  destruct (String.eqb_spec s "{}") as [E|E]; [discriminate | exact E].
Qed.

(** X9. [_parse_offerings] gives one offering per raw entry, in order,
    and none for an empty or missing list; the requirement and the
    deliverable of an offering are never the text of the empty object. *)
Theorem parse_offerings_shape (jobs_raw : value) (offs : list Offering) :
  _parse_offerings jobs_raw = Ok offs ->
  (truthy jobs_raw = false -> offs = []) /\
  (forall js, jobs_raw = VList js ->
     length offs = length js /\
     forall i j o, js !! i = Some j -> offs !! i = Some o ->
       parse_offering j = Ok o) /\
  Forall (fun o => o_requirement o <> "{}" /\ o_deliverable o <> "{}") offs.
Proof.
  unfold _parse_offerings. intros Hp. inv_bind Hp.
  apply mapM_Ok_Forall2 in Hp. split; [|split].
  - intros Hf. rewrite por_falsy in Hx by assumption. injection Hx as <-.
    now inversion Hp.
  - intros js ->. assert (x = js) as ->.
    { destruct js; simpl in Hx; now injection Hx. }
    split; [symmetry; eapply Forall2_length; eassumption|].
    intros i j o Hj Ho.
    destruct (Forall2_lookup_l _ _ _ _ _ Hp Hj) as (o' & Ho' & Hparse).
    rewrite Ho in Ho'. now injection Ho' as <-.
  - clear Hx. induction Hp as [|j o js os Hj _ IH]; constructor; [|exact IH].
    apply parse_offering_inv in Hj as (jd & pv & _ & _ & _ & -> & ->).
    split; apply not_braces.
Qed.

(** X10. The price of an offering is the [value] of its [priceV2] object
    when that object has one, and the legacy [price] only when it has
    none; a zero or empty price of either kind becomes 0.  A zero
    [priceV2] value is not replaced by the legacy price. *)
Theorem parse_offering_price (jd : gmap string value) (o : Offering) :
  parse_offering (VDict jd) = Ok o ->
  (forall pv v, jd !! "priceV2" = Some (VDict pv) -> pv !! "value" = Some v ->
     o_price o = v or' VInt 0) /\
  (forall v, jd !! "priceV2" = None -> jd !! "price" = Some v ->
     o_price o = v or' VInt 0) /\
  (forall pv v, jd !! "priceV2" = Some (VDict pv) -> pv !! "value" = None ->
     jd !! "price" = Some v -> o_price o = v or' VInt 0) /\
  (jd !! "priceV2" = None -> jd !! "price" = None -> o_price o = VInt 0).
Proof.
  intros Hp. apply parse_offering_inv in Hp as (jd' & pv' & [= <-] & Hpv & -> & _).
  repeat split.
  - intros pv v Hp2 Hv. rewrite (get_or_Some _ _ _ _ Hp2) in Hpv.
    apply as_dict_por_dict in Hpv. subst pv'.
    now rewrite (get_or_Some _ _ _ _ Hv).
  - intros v Hp2 Hprice. rewrite (get_or_None _ _ _ Hp2) in Hpv.
    apply as_dict_por_dict in Hpv. subst pv'.
    rewrite get_or_None by apply lookup_empty.
    now rewrite (get_or_Some _ _ _ _ Hprice).
  - intros pv v Hp2 Hv Hprice. rewrite (get_or_Some _ _ _ _ Hp2) in Hpv.
    apply as_dict_por_dict in Hpv. subst pv'.
    rewrite (get_or_None _ _ _ Hv). now rewrite (get_or_Some _ _ _ _ Hprice).
  - intros Hp2 Hprice. rewrite (get_or_None _ _ _ Hp2) in Hpv.
    apply as_dict_por_dict in Hpv. subst pv'.
    rewrite get_or_None by apply lookup_empty.
    now rewrite (get_or_None _ _ _ Hprice).
Qed.

End MergeFurther.

(** ** More on the merge *)

Ltac merge_open H :=
  unfold _merge_agent in H;
  repeat (let x := fresh "x" in
          let Hx := fresh "Hx" in
          apply bind_Ok in H; destruct H as (x & Hx & H));
  injection H as <-;
  cbn [rank agent_id agent_link name category description volume gross_agdp
       revenue success_rate rating total_jobs successful_jobs
       unique_active_wallets unique_buyers online_status last_active_at
       transaction_count offerings wallet_address contract_address
       token_address owner_address twitter_handle symbol profile_pic_url role
       cluster has_graduated wallet_balance enabled_chains virtual_agent_id
       is_virtual_agent created_at].

Lemma truthy_por (a b : value) : truthy (a or' b) = (truthy a || truthy b)%bool.
Proof. unfold por. destruct (truthy a) eqn:E; [exact E | reflexivity]. Qed.

Section MergeFields.
Context `{Builtins}.

(** X11. The offerings of a merged record come from the detail record's
    [jobs] when that list is not empty, else from the list record's
    [offerings]: one offering per entry.  Every entry has to be an
    object, or the merge raises. *)
Theorem merge_offerings_source (rk : Z) (l : gmap string value) (m d : value)
    (a : AgentData) (js : list value) :
  _merge_agent rk l m d = Ok a ->
  get (record_of d) "jobs" or' get l "offerings" or' VList [] = VList js ->
  length (offerings a) = length js /\
  Forall (fun j => exists jd, j = VDict jd) js /\
  (forall i j o, js !! i = Some j -> offerings a !! i = Some o ->
     parse_offering j = Ok o).
Proof.
  intros Hm Hjs. merge_open Hm.
  apply as_dict_record_of in Hx. subst x. rewrite Hjs in Hx5.
  unfold _parse_offerings in Hx5. inv_bind Hx5.
  assert (x = js) as ->.
  { destruct js; simpl in Hx; now injection Hx. }
  apply mapM_Ok_Forall2 in Hx5. split; [|split].
  - symmetry. eapply Forall2_length. eassumption.
  - clear -Hx5. induction Hx5 as [|j o js os Hj _ IH]; constructor; [|exact IH].
    apply parse_offering_inv in Hj as (jd & _ & -> & _). now exists jd.
  - intros i j o Hj Ho.
    destruct (Forall2_lookup_l _ _ _ _ _ Hx5 Hj) as (o' & Ho' & Hparse).
    rewrite Ho in Ho'. now injection Ho' as <-.
Qed.

(** X12. The two flags of a merged record are true when they are true in
    the detail record or in the list record. *)
Theorem merge_flags_either (rk : Z) (l : gmap string value) (m d : value)
    (a : AgentData) :
  _merge_agent rk l m d = Ok a ->
  truthy (has_graduated a) =
    (truthy (get_or (record_of d) "hasGraduated" (VBool false))
     || truthy (get_or l "hasGraduated" (VBool false)))%bool /\
  truthy (is_virtual_agent a) =
    (truthy (get_or (record_of d) "isVirtualAgent" (VBool false))
     || truthy (get_or l "isVirtualAgent" (VBool false)))%bool.
Proof.
  intros Hm. merge_open Hm. apply as_dict_record_of in Hx. subst x.
  split; apply truthy_por.
Qed.

(** X13. Name and id are taken from the list record when it has a
    non-empty one and from the detail record otherwise; description and
    wallet address are taken from the detail record when it has a
    non-empty one and from the list record otherwise. *)
Theorem merge_identity_precedence (rk : Z) (l : gmap string value) (m d : value)
    (a : AgentData) :
  _merge_agent rk l m d = Ok a ->
  (forall v, l !! "name" = Some v -> truthy v = true -> name a = v) /\
  (forall v, truthy (get l "name") = false ->
     record_of d !! "name" = Some v -> name a = v) /\
  (forall v, l !! "id" = Some v -> truthy v = true -> agent_id a = v) /\
  (forall v, truthy (get l "id") = false ->
     record_of d !! "id" = Some v -> agent_id a = v) /\
  (forall v, record_of d !! "description" = Some v -> truthy v = true ->
     description a = v) /\
  (forall v, truthy (get (record_of d) "description") = false ->
     l !! "description" = Some v -> truthy v = true -> description a = v) /\
  (forall v, record_of d !! "walletAddress" = Some v -> truthy v = true ->
     wallet_address a = v) /\
  (forall v, truthy (get (record_of d) "walletAddress") = false ->
     l !! "walletAddress" = Some v -> wallet_address a = v).
Proof.
  intros Hm. merge_open Hm. apply as_dict_record_of in Hx. subst x.
  repeat split.
  - intros v Hv Ht. rewrite (get_Some _ _ _ Hv). now apply por_truthy.
  - intros v Hf Hv. rewrite por_falsy by assumption.
    now apply get_or_Some.
  - intros v Hv Ht. rewrite (get_Some _ _ _ Hv). now apply por_truthy.
  - intros v Hf Hv. rewrite por_falsy by assumption.
    now apply get_or_Some.
  - intros v Hv Ht. rewrite (get_Some _ _ _ Hv).
    now rewrite !(por_truthy v) by assumption.
  - intros v Hf Hv Ht. rewrite (por_falsy _ _ Hf), (get_Some _ _ _ Hv).
    now apply por_truthy.
  - intros v Hv Ht. rewrite (get_Some _ _ _ Hv). now apply por_truthy.
  - intros v Hf Hv. rewrite por_falsy by assumption.
    now apply get_or_Some.
Qed.

(** X14. What every merged record satisfies: the buyer count is copied
    to the active-wallet count, the link ends in the printed id, the
    status is one of the two display values, and the displayed
    timestamp never begins with "2999". *)
Theorem merge_record_invariants (rk : Z) (l : gmap string value) (m d : value)
    (a : AgentData) :
  _merge_agent rk l m d = Ok a ->
  unique_active_wallets a = unique_buyers a /\
  agent_link a = "https://app.virtuals.io/acp/agent-details/" ++ py_str (agent_id a) /\
  (online_status a = "在线" \/ online_status a = "离线") /\
  (online_status a = "在线" -> last_active_at a = "始终在线") /\
  startswith (last_active_at a) "2999" = false.
Proof.
  intros Hm. merge_open Hm.
  split; [reflexivity|]. split; [reflexivity|].
  destruct (startswith x2 "2999") eqn:E; simpl.
  - split; [now left|]. split; [reflexivity|]. reflexivity.
  - split; [now right|]. split; [discriminate | exact E].
Qed.

(** X15. An agent known by its id alone merges without raising, to the
    defaults: zero metrics, no offerings, offline, and the labels of the
    empty category, role and cluster codes. *)
Theorem merge_id_only_defaults (rk aid : Z) :
  exists a,
    _merge_agent rk {[ "id" := VInt aid ]} VNone VNone = Ok a /\
    rank a = rk /\ agent_id a = VInt aid /\ name a = VStr "" /\
    volume a = VInt 0 /\ gross_agdp a = 0%Q /\ revenue a = VInt 0 /\
    success_rate a = 0%Q /\ rating a = VNone /\ offerings a = [] /\
    online_status a = "离线" /\ last_active_at a = "" /\
    category a = "未分类" /\ role a = "未指定" /\ cluster a = "" /\
    has_graduated a = VBool false /\ enabled_chains a = "".
Proof.
  eexists. split.
  - unfold _merge_agent. cbn -[strip translate py_str]. reflexivity.
  - cbn. repeat split.
    assert (get {[ "id" := VInt aid ]} "id" = VInt aid) as ->
      by apply get_Some, lookup_singleton_eq.
    unfold por. simpl. destruct (Z.eqb_spec aid 0) as [->|]; reflexivity.
Qed.

End MergeFields.

(** ** The id-indexed mappings *)

Lemma mapM_app_inv {A B} (f : A -> res B) (l1 l2 : list A) (ys : list B) :
  mapM f (l1 ++ l2) = Ok ys ->
  exists ys1 ys2, ys = (ys1 ++ ys2)%list /\ mapM f l1 = Ok ys1 /\ mapM f l2 = Ok ys2.
Proof.
  revert ys. induction l1 as [|x l1 IH]; intros ys Hm.
  - exists [], ys. auto.
  - change ((x :: l1) ++ l2)%list with (x :: (l1 ++ l2))%list in Hm.
    cbn [mapM] in Hm. inv_bind Hm. inv_bind Hm. injection Hm as <-.
    destruct (IH _ Hx0) as (ys1 & ys2 & -> & H1 & H2).
    exists (x0 :: ys1), ys2. split; [reflexivity|]. split; [|assumption].
    cbn [mapM]. rewrite Hx. simpl. rewrite H1. reflexivity.
Qed.

Lemma foldl_insert_other (entries : list (Z * gmap string value))
    (acc : gmap Z (gmap string value)) (aid : Z) :
  Forall (fun e => e.1 <> aid) entries ->
  foldl (fun acc e => <[e.1 := e.2]> acc) acc entries !! aid = acc !! aid.
Proof.
  intros Hall. revert acc. induction Hall as [|e l He _ IH]; intros acc.
  - reflexivity.
  - simpl. rewrite IH. now apply lookup_insert_ne.
Qed.

Lemma foldl_insert_dom (entries : list (Z * gmap string value))
    (acc : gmap Z (gmap string value)) (aid : Z) :
  is_Some (foldl (fun acc e => <[e.1 := e.2]> acc) acc entries !! aid) <->
  is_Some (acc !! aid) \/ exists e, e ∈ entries /\ e.1 = aid.
Proof.
  revert acc. induction entries as [|e l IH]; intros acc.
  - simpl. split; [now left|]. intros [Hs | (e & He & _)]; [exact Hs|].
    now apply elem_of_nil in He.
  - simpl. rewrite IH. rewrite lookup_insert_is_Some. split.
    + intros [[Heq | [_ Hs]] | (e' & He' & Hid)].
      * right. exists e. split; [left | exact Heq].
      * now left.
      * right. exists e'. split; [now right | exact Hid].
    + intros [Hs | (e' & He' & Hid)].
      * destruct (decide (e.1 = aid)); [left; now left | left; right; auto].
      * apply elem_of_cons in He' as [-> | He'].
        -- left. now left.
        -- right. exists e'. auto.
Qed.

Lemma subscript_id_inv (a : value) (e : Z * gmap string value) :
  subscript_id a = Ok e -> a = VDict e.2 /\ e.2 !! "id" = Some (VInt e.1).
Proof.
  unfold subscript_id. destruct a; try discriminate.
  destruct (d !! "id") as [[]|] eqn:E; try discriminate.
  intros [= <-]. auto.
Qed.

(** X16. In an id-indexed mapping the last record with a given id wins. *)
Theorem index_by_id_last_wins (before after : list value)
    (d : gmap string value) (aid : Z) (am : gmap Z (gmap string value)) :
  index_by_id (before ++ VDict d :: after) = Ok am ->
  d !! "id" = Some (VInt aid) ->
  (forall d', VDict d' ∈ after -> d' !! "id" <> Some (VInt aid)) ->
  am !! aid = Some d.
Proof.
  unfold index_by_id. intros Hi Hid Hafter. inv_bind Hi. injection Hi as <-.
  apply mapM_app_inv in Hx as (es1 & es2 & -> & _ & H2).
  cbn [mapM] in H2. inv_bind H2. inv_bind H2. injection H2 as <-.
  rewrite foldl_app. simpl.
  apply subscript_id_inv in Hx as [Hd Hxid]. injection Hd as Hd.
  rewrite <- Hd in Hxid. rewrite Hid in Hxid. injection Hxid as Hxid.
  rewrite foldl_insert_other.
  - rewrite <- Hxid, Hd. apply lookup_insert_eq.
  - apply mapM_Ok_Forall2 in Hx0. clear -Hx0 Hafter.
    induction Hx0 as [|a e l k Ha _ IH]; constructor.
    + apply subscript_id_inv in Ha as [-> Hid]. intros E.
      apply (Hafter e.2); [left | now rewrite <- E].
    + apply IH. intros d' Hd'. apply Hafter. now right.
Qed.

(** The ids of an id-indexed mapping are the ids of its records. *)
Lemma index_by_id_dom (records : list value) (am : gmap Z (gmap string value))
    (aid : Z) :
  index_by_id records = Ok am ->
  is_Some (am !! aid) <->
  exists d, VDict d ∈ records /\ d !! "id" = Some (VInt aid).
Proof.
  unfold index_by_id. intros Hi. inv_bind Hi. injection Hi as <-.
  apply mapM_Ok_Forall2 in Hx. rewrite foldl_insert_dom. split.
  - intros [Hs | (e & He & <-)].
    + rewrite lookup_empty in Hs. now destruct Hs.
    + apply list_elem_of_lookup in He as (i & He).
      destruct (Forall2_lookup_r _ _ _ _ _ Hx He) as (a & Ha & Hsub).
      apply subscript_id_inv in Hsub as [-> Hid].
      exists e.2. split; [|exact Hid].
      eapply list_elem_of_lookup_2. eassumption.
  - intros (d & Hd & Hid). right.
    apply list_elem_of_lookup in Hd as (i & Hd).
    destruct (Forall2_lookup_l _ _ _ _ _ Hx Hd) as (e & He & Hsub).
    apply subscript_id_inv in Hsub as [Heq Hid'].
    injection Heq as Heq. rewrite <- Heq in Hid'. rewrite Hid in Hid'.
    injection Hid' as Hid'.
    exists e. split; [|now symmetry].
    eapply list_elem_of_lookup_2. eassumption.
Qed.

(** ** The fan-out and the run as a whole *)

Section ScrapeFurther.
Context `{Builtins}.
Variable self : ACPScraper.
Variable net : request -> Z -> response.

Lemma fetch_detail_throttled_key (aid k : Z) (detail metrics : value) :
  fetch_detail_throttled self net aid = Ok (k, detail, metrics) -> k = aid.
Proof.
  unfold fetch_detail_throttled. intros Hf. inv_bind Hf. inv_bind Hf.
  now injection Hf.
Qed.

Lemma collect_results_fold (ids : list Z) :
  forall (acc : gmap Z value * gmap Z value) (aid : Z),
  let maps :=
    foldl (fun acc r =>
             match r with
             | Raise _ => acc
             | Ok (aid, detail, ind_metrics) =>
                 (if truthy detail then <[aid := detail]> acc.1 else acc.1,
                  if truthy ind_metrics then <[aid := ind_metrics]> acc.2 else acc.2)
             end) acc (fetch_detail_throttled self net <$> ids) in
  (aid ∈ ids ->
     maps.1 !! aid =
       from_option Some (acc.1 !! aid)
         (kept_detail (fetch_detail_throttled self net aid)) /\
     maps.2 !! aid =
       from_option Some (acc.2 !! aid)
         (kept_metrics (fetch_detail_throttled self net aid))) /\
  (aid ∉ ids -> maps.1 !! aid = acc.1 !! aid /\ maps.2 !! aid = acc.2 !! aid).
Proof.
  induction ids as [|x ids IH]; intros acc aid; cbn zeta.
  - split; [intros Hin; now apply elem_of_nil in Hin | auto].
  - rewrite fmap_cons. cbn [foldl].
    set (acc' := match fetch_detail_throttled self net x with
                 | Ok (aid0, detail, ind_metrics) => _
                 | Raise _ => acc
                 end).
    destruct (IH acc' aid) as [Hin Hout].
    assert (x <> aid -> acc'.1 !! aid = acc.1 !! aid /\ acc'.2 !! aid = acc.2 !! aid)
      as Hother.
    { intros Hne. subst acc'.
      destruct (fetch_detail_throttled self net x) as [[[k dt] mt]|e] eqn:E;
        [|auto].
      apply fetch_detail_throttled_key in E. subst k. simpl.
      split; [destruct (truthy dt) | destruct (truthy mt)];
        try reflexivity; now apply lookup_insert_ne. }
    assert (acc'.1 !! x =
              from_option Some (acc.1 !! x)
                (kept_detail (fetch_detail_throttled self net x)) /\
            acc'.2 !! x =
              from_option Some (acc.2 !! x)
                (kept_metrics (fetch_detail_throttled self net x))) as Hsame.
    { subst acc'.
      destruct (fetch_detail_throttled self net x) as [[[k dt] mt]|e] eqn:E;
        [|auto].
      apply fetch_detail_throttled_key in E. subst k. simpl.
      split; [destruct (truthy dt) | destruct (truthy mt)];
        try reflexivity; apply lookup_insert_eq. }
    split.
    + intros Hmem. destruct (decide (aid ∈ ids)) as [Hi | Hni].
      * destruct (Hin Hi) as [H1 H2]. rewrite H1, H2.
        destruct (decide (x = aid)) as [->|Hne].
        -- destruct Hsame as [S1 S2]. rewrite S1, S2.
           split; [destruct (kept_detail _) | destruct (kept_metrics _)];
             reflexivity.
        -- destruct (Hother Hne) as [O1 O2]. now rewrite O1, O2.
      * destruct (Hout Hni) as [H1 H2]. rewrite H1, H2.
        apply elem_of_cons in Hmem as [->|Hi]; [exact Hsame | contradiction].
    + intros Hnot. apply not_elem_of_cons in Hnot as [Hne Hni].
      destruct (Hout Hni) as [H1 H2]. rewrite H1, H2.
      apply Hother. congruence.
Qed.

(** X17. The fan-out files its results under the agent id, whatever the
    order of the ids.  An id has a detail (per-agent metrics) entry
    exactly when its task returned and the record is not empty; when the
    metrics fetch of the task raises, the detail record it had fetched
    is not kept either.  Ids that were not fetched have no entry. *)
Theorem collect_results_by_id (ids : list Z) (aid : Z) :
  let maps := collect_results (fetch_detail_throttled self net <$> ids) in
  (aid ∈ ids ->
     maps.1 !! aid = kept_detail (fetch_detail_throttled self net aid) /\
     maps.2 !! aid = kept_metrics (fetch_detail_throttled self net aid)) /\
  (aid ∉ ids -> maps.1 !! aid = None /\ maps.2 !! aid = None) /\
  (forall e, fetch_agent_metrics self net aid = Raise e ->
     maps.1 !! aid = None /\ maps.2 !! aid = None).
Proof.
  cbn zeta. unfold collect_results.
  destruct (collect_results_fold ids (∅, ∅) aid) as [Hin Hout].
  cbn zeta in Hin, Hout. simpl in Hin, Hout. rewrite !lookup_empty in *.
  assert (forall o : option value, from_option Some None o = o) as Hfrom
    by (intros [?|]; reflexivity).
  rewrite !Hfrom in Hin.
  split; [exact Hin|]. split; [exact Hout|].
  intros e He. destruct (decide (aid ∈ ids)) as [Hi|Hni]; [|now apply Hout].
  destruct (Hin Hi) as [-> ->].
  unfold fetch_detail_throttled. rewrite He.
  destruct (fetch_agent_detail self net aid); simpl; auto.
Qed.

Lemma get_dead (req : Z -> response) :
  (forall k, failed (req k) = true) -> (_get self req).1 = VNone.
Proof.
  intros Hall. unfold _get. now rewrite get_loop_all_failed.
Qed.

(** X18. When every attempt of every request fails, the run still
    returns, given a concurrency setting that is not negative: no
    records, the default platform total, and zero agents.  (There is no
    agent to fetch, so the fan-out needs no permit.) *)
Theorem scrape_all_dead_network (now : string) (fuel : nat) :
  0 <= concurrency self ->
  (forall r k, failed (net r k) = true) ->
  scrape_all self net now (S fuel) =
    Some (Ok ([], {| scrape_time := now;
                     total_agdp_latest := VFloat 0;
                     total_agents := 0 |})).
Proof.
  intros Hpermits Hdead. unfold scrape_all.
  unfold fetch_global_metrics, fetch_all_agents.
  rewrite !get_dead by (intros k; apply Hdead). simpl.
  unfold fetch_all_metrics_pages.
  rewrite (pages_loop_short self net fuel [] [] 1).
  - simpl. unfold gather_sources, index_sources, Semaphore. simpl.
    destruct (Z.ltb_spec (concurrency self) 0) as [Hneg|_]; [lia|]. simpl.
    assert (all_ids_of ∅ ∅ = []) as -> by (vm_compute; reflexivity).
    rewrite andb_false_r. reflexivity.
  - apply failed_page_is_empty. intros k _. apply Hdead.
  - simpl. lia.
Qed.

(** X28. The fan-out is gated by a semaphore of [concurrency] permits,
    made after the lists are fetched and indexed.  A negative setting
    makes the run raise ValueError at that point; with a setting of 0
    and at least one agent to fetch the run never returns, whatever the
    fuel. *)
Theorem scrape_all_needs_permits (now : string) (fuel : nat)
    (gm : GlobalMetrics) (agents_list : value) (metrics_list : list value)
    (tr : list walk_event) (agents : list value)
    (am mm : gmap Z (gmap string value)) :
  fetch_global_metrics self net now = Ok gm ->
  fetch_all_agents self net = Ok agents_list ->
  fetch_all_metrics_pages self net fuel = Some (Ok metrics_list, tr) ->
  index_by_id metrics_list = Ok mm ->
  py_iter agents_list = Ok agents ->
  index_by_id agents = Ok am ->
  (concurrency self < 0 -> scrape_all self net now fuel = Some (Raise ValueError)) /\
  (concurrency self = 0 -> all_ids_of am mm <> [] ->
     scrape_all self net now fuel = None).
Proof.
  intros Hgm Hal Hml Hmm Hag Ham.
  unfold scrape_all. rewrite Hgm, Hal, Hml. simpl.
  unfold gather_sources, index_sources, Semaphore. rewrite Hmm. simpl.
  rewrite Hag. simpl. rewrite Ham. simpl. split.
  - intros Hneg. destruct (Z.ltb_spec (concurrency self) 0); [reflexivity | lia].
  - intros Hzero Hids. rewrite Hzero. simpl.
    case_bool_decide; [contradiction | reflexivity].
Qed.

End ScrapeFurther.

Section ScrapeCoverage.
Context `{Builtins}.
Variable self : ACPScraper.
Variable net : request -> Z -> response.

(** X19. A run that returns has merged every id exactly once: the ids
    are those of the records of the agent list and of the leaderboard
    pages, without repetition; there are as many records as ids, the
    reported agent count is that number, and every id other than 0 is
    the id of a returned record. *)
Theorem scrape_all_covers_ids (now : string) (fuel : nat)
    (agents : list AgentData) (gm : GlobalMetrics) :
  scrape_all self net now fuel = Some (Ok (agents, gm)) ->
  total_agents gm = Z.of_nat (length agents) /\
  exists agents_list listed metrics_list tr all_ids,
    fetch_all_agents self net = Ok agents_list /\
    py_iter agents_list = Ok listed /\
    fetch_all_metrics_pages self net fuel = Some (Ok metrics_list, tr) /\
    NoDup all_ids /\
    length agents = length all_ids /\
    (forall aid, aid ∈ all_ids <->
       exists d, VDict d ∈ (listed ++ metrics_list)%list /\
                 d !! "id" = Some (VInt aid)) /\
    (forall aid, aid ∈ all_ids -> aid <> 0 ->
       exists a, a ∈ agents /\ agent_id a = VInt aid).
Proof.
  intros Hs. apply scrape_all_inv in Hs as (src & all_ids & Hsrc & Hrm & Htotal).
  destruct (rank_and_merge_inv _ _ _ Hrm) as (ranked & Hrank & Hmerge).
  pose proof (rank_and_merge_length _ _ _ _ Hrm Hrank) as Hlen.
  destruct (ranking_entries _ _ _ Hrank) as [_ Hperm].
  assert (length ranked = length all_ids) as Hlen'.
  { rewrite <- (length_fmap fst ranked). now rewrite Hperm. }
  split; [rewrite Htotal; f_equal; lia|].
  pose proof Hsrc as (agents_list & metrics_list & tr & Hal & Hml & Hg).
  apply gather_sources_inv in Hg as (listed & Hmm & Hlisted & Ham & Hids & _).
  exists agents_list, listed, metrics_list, tr, all_ids.
  split; [assumption|]. split; [assumption|]. split; [assumption|].
  split; [|split; [lia|split]].
  - rewrite Hids. unfold all_ids_of.
    rewrite merge_sort_Permutation. apply NoDup_elements.
  - intros aid. rewrite Hids, all_ids_of_elem.
    rewrite (index_by_id_dom _ _ aid Ham), (index_by_id_dom _ _ aid Hmm).
    split.
    + intros [(d & Hd & Hid) | (d & Hd & Hid)]; exists d;
        (split; [apply elem_of_app; auto | exact Hid]).
    + intros (d & Hd & Hid). apply elem_of_app in Hd as [Hd | Hd];
        [left | right]; exists d; auto.
  - intros aid Hin Hne.
    rewrite <- Hperm in Hin. apply list_elem_of_fmap in Hin as ([aid' q] & -> & Hin).
    apply list_elem_of_lookup in Hin as (i & Hi).
    destruct (lookup_lt_is_Some_2 agents i) as [a Ha].
    { apply lookup_lt_Some in Hi. lia. }
    destruct (Hmerge i a Ha) as (aid'' & q' & Hi' & Hm).
    rewrite Hi in Hi'. injection Hi' as <- <-.
    exists a. split; [eapply list_elem_of_lookup_2; eassumption|].
    eapply merge_entry_agent_id; eassumption.
Qed.

End ScrapeCoverage.

(** ** The constructor *)

Section InitProperties.
Context `{Builtins}.

(** X20. The constructor takes its three settings from the [scraper]
    section of the configuration and falls back to 3 tasks, 1.5 seconds
    and 3 attempts for the keys the section does not have.  A key that
    is present is taken as it is, an explicit null included.  Without an
    argument, and without a configuration file, all defaults apply. *)
Theorem init_settings (fs : string -> res string) (cd : gmap string value) :
  truthy (VDict cd) = true ->
  (cd !! "scraper" = None ->
     __init__ fs (VDict cd) =
       Ok {| config := VDict cd; raw_concurrency := VInt 3;
             raw_delay := VFloat (3 # 2); raw_max_retries := VInt 3 |}) /\
  (forall sc, cd !! "scraper" = Some (VDict sc) ->
     __init__ fs (VDict cd) =
       Ok {| config := VDict cd;
             raw_concurrency := default (VInt 3) (sc !! "concurrency");
             raw_delay := default (VFloat (3 # 2)) (sc !! "request_delay_sec");
             raw_max_retries := default (VInt 3) (sc !! "max_retries") |}) /\
  (forall config, truthy config = false ->
     fs "config.yaml" = Raise FileNotFoundError ->
     __init__ fs config =
       Ok {| config := VDict ∅; raw_concurrency := VInt 3;
             raw_delay := VFloat (3 # 2); raw_max_retries := VInt 3 |}).
Proof.
  intros Ht. unfold __init__. split; [|split].
  - intros Hs. rewrite Ht. simpl. now rewrite (get_or_None _ _ _ Hs).
  - intros sc Hs. rewrite Ht. simpl. now rewrite (get_or_Some _ _ _ _ Hs).
  - intros config Hf Hfs. rewrite Hf. unfold load_config. rewrite Hfs. reflexivity.
Qed.

(** X21. Nothing but a dict will do for the configuration and for its
    [scraper] section: a section that is present but empty ([null]), or
    of any other type, makes the constructor raise AttributeError, and so
    does a configuration that is a list or a text. *)
Theorem init_rejects_non_dict (fs : string -> res string) :
  (forall cd v, truthy (VDict cd) = true -> cd !! "scraper" = Some v ->
     (forall sc, v <> VDict sc) ->
     __init__ fs (VDict cd) = Raise AttributeError) /\
  (forall config, truthy config = true -> (forall cd, config <> VDict cd) ->
     __init__ fs config = Raise AttributeError).
Proof.
  unfold __init__. split.
  - intros cd v Ht Hs Hv. rewrite Ht. simpl. rewrite (get_or_Some _ _ _ _ Hs).
    destruct v; try reflexivity. now destruct (Hv d).
  - intros config Ht Hv. rewrite Ht. simpl.
    destruct config; try reflexivity. now destruct (Hv d).
Qed.

End InitProperties.

(** ** The cells of the sheet *)

Lemma mapM_Ok_all {A B} (f : A -> res B) (l : list A) :
  Forall (fun x => exists y, f x = Ok y) l ->
  exists ys, mapM f l = Ok ys /\ length ys = length l.
Proof.
  induction 1 as [|x l [y Hy] _ (ys & Hys & Hlen)].
  - exists []. auto.
  - exists (y :: ys). cbn [mapM]. rewrite Hy. simpl. rewrite Hys. simpl.
    split; [reflexivity | now rewrite Hlen].
Qed.

Section CellProperties.
Context `{Builtins} `{Formatting}.

Lemma offering_line_unknown (field : string) (i : Z) (o : Offering) :
  field <> "names" -> field <> "descs" -> field <> "prices" ->
  field <> "sla" -> field <> "reqs" ->
  offering_line field i o = Ok None.
Proof.
  intros H1 H2 H3 H4 H5. unfold offering_line.
  apply String.eqb_neq in H1, H2, H3, H4, H5.
  now rewrite H1, H2, H3, H4, H5.
Qed.

Lemma offering_line_total (field : string) (i : Z) (o : Offering) :
  field <> "prices" -> exists line, offering_line field i o = Ok line.
Proof.
  intros Hp. unfold offering_line. apply String.eqb_neq in Hp. rewrite Hp.
  repeat match goal with
         | |- context [String.eqb field ?s] => destruct (String.eqb field s)
         end; eexists; reflexivity.
Qed.

Lemma format_offerings_field_total (offs : list Offering) (field : string) :
  field <> "prices" -> exists text, _format_offerings_field offs field = Ok text.
Proof.
  intros Hp. unfold _format_offerings_field.
  destruct offs as [|o offs]; [now eexists|].
  destruct (mapM_Ok_all (fun '(i, o) => offering_line field i o)
              (enumerate1 (o :: offs))) as (lines & Hlines & _).
  - apply Forall_forall. intros [i o'] _. now apply offering_line_total.
  - rewrite Hlines. now eexists.
Qed.

(** X22. The text of an offering column is "无" when the agent has no
    offerings.  For a field name the function does not know it is the
    empty text when there are offerings.  Only the price column can
    raise: every other field gives a text for every list of offerings. *)
Theorem format_offerings_field_edges (offs : list Offering) (field : string) :
  _format_offerings_field [] field = Ok "无" /\
  (offs <> [] ->
   field <> "names" -> field <> "descs" -> field <> "prices" ->
   field <> "sla" -> field <> "reqs" ->
     _format_offerings_field offs field = Ok "") /\
  (field <> "prices" -> exists text, _format_offerings_field offs field = Ok text).
Proof.
  split; [reflexivity|]. split.
  - intros Hne H1 H2 H3 H4 H5. unfold _format_offerings_field.
    destruct offs as [|o offs]; [contradiction|].
    assert (forall l : list (Z * Offering),
              mapM (fun '(i, o) => offering_line field i o) l
              = Ok (replicate (length l) None)) as Hall.
    { induction l as [|[i o'] l IH]; [reflexivity|].
      cbn [mapM]. rewrite offering_line_unknown by assumption. simpl.
      rewrite IH. reflexivity. }
    rewrite Hall. simpl.
    assert (forall n, omap id (replicate n (@None string)) = []) as ->
      by (induction n; auto).
    reflexivity.
  - apply format_offerings_field_total.
Qed.

(** X23. The values of a data row are one per column, 35 of them, and
    computing them can fail in the price column only: when the prices of
    the agent's offerings can be formatted, every cell value is there. *)
Theorem data_row_built (agent : AgentData) (prices : string) :
  _format_offerings_field (offerings agent) "prices" = Ok prices ->
  exists cells, data_row agent = Ok cells /\ length cells = 35%nat.
Proof.
  intros Hprices. unfold data_row.
  destruct (mapM_Ok_all (_get_cell_value agent) column_keys) as (cells & Hc & Hlen).
  - apply Forall_forall. intros key _. unfold _get_cell_value.
    repeat match goal with
           | |- context [String.eqb key ?s] =>
               destruct (String.eqb_spec key s) as [->|]
           end;
      try (eexists; reflexivity);
      try (rewrite Hprices; eexists; reflexivity);
      match goal with
      | |- context [_format_offerings_field _ ?f] =>
          destruct (format_offerings_field_total (offerings agent) f)
            as (text & ->); [discriminate | eexists; reflexivity]
      end.
  - exists cells. split; [assumption|]. rewrite Hlen. reflexivity.
Qed.

End CellProperties.

(** X24. The 35 column keys are pairwise different, and each is either
    one of the five offering columns or a field of the record, so no
    column falls back to the empty default.  The id, the total job count
    and the active-wallet count of a record are not exported. *)
Theorem header_columns_backed (agent : AgentData) :
  length column_keys = 35%nat /\
  NoDup column_keys /\
  Forall (fun key =>
            key ∈ ["offering_names"; "offering_descs"; "offering_prices";
                   "offering_sla"; "offering_reqs"]
            \/ is_Some (agent_attr agent key)) column_keys /\
  ("agent_id" ∉ column_keys) /\ ("total_jobs" ∉ column_keys) /\
  ("unique_active_wallets" ∉ column_keys).
Proof.
  split; [reflexivity|]. split; [|split; [|split; [|split]]].
  - apply (bool_decide_unpack _). vm_compute. exact I.
  - unfold column_keys. cbn.
    repeat (constructor; [first [right; eexists; reflexivity
                                | left; apply (bool_decide_unpack _); vm_compute; exact I]|]).
    constructor.
  - apply (bool_decide_unpack _). vm_compute. exact I.
  - apply (bool_decide_unpack _). vm_compute. exact I.
  - apply (bool_decide_unpack _). vm_compute. exact I.
Qed.

(** * Further examples *)

(** Two failures, then an answer: three attempts, sleeps of 1 and 2
    seconds. *)
Lemma get_returns_first_success_example :
  0 <= 2 < max_retries example_scraper /\
  (_get example_scraper flaky_net).1 = obj [("data", VList [])] /\
  sends (_get example_scraper flaky_net).2 = [0; 1; 2] /\
  sleeps (_get example_scraper flaky_net).2 = [1; 2].
Proof.
  split; [split; [discriminate | reflexivity]|].
  destruct (get_returns_first_success example_scraper flaky_net 2
              (obj [("data", VList [])])) as (Hres & Hsends & Hsleeps & _).
  - split; [discriminate | reflexivity].
  - intros i Hi. assert (i = 0 \/ i = 1) as [-> | ->] by lia; reflexivity.
  - reflexivity.
  - split; [exact Hres|]. split; [exact Hsends | exact Hsleeps].
Defined.

(** A budget of zero: nothing is sent, even to a server that answers. *)
Lemma get_without_budget_example :
  max_retries idle_scraper <= 0 /\
  _get idle_scraper (fun _ => ok_json (obj [("data", VList [])])) = (VNone, []).
Proof.
  split; [discriminate|]. apply get_without_budget. discriminate.
Defined.

(** On a dead network the agent list is empty and a detail is [None]. *)
Lemma fetchers_default_example :
  no_data (_get example_scraper dead_net).1 /\
  fetch_all_agents example_scraper (fun _ => dead_net) = Ok (VList []) /\
  fetch_agent_detail example_scraper (fun _ => dead_net) 1 = Ok VNone.
Proof.
  split; [left; reflexivity|].
  destruct (fetchers_default_without_data example_scraper (fun _ => dead_net))
    as (Hlist & _ & Hdetail & _).
  split; [apply Hlist | apply Hdetail]; left; reflexivity.
Defined.

(** A null [data] member: the agent list raises, the leaderboard hands
    the null on. *)
Lemma fetch_all_agents_unsized_example :
  (_get example_scraper (null_data_net AgentsList)).1 = VDict null_data_body /\
  fetch_all_agents example_scraper null_data_net = Raise TypeError /\
  fetch_metrics_leaderboard example_scraper null_data_net 1 100 = Ok VNone.
Proof.
  split; [reflexivity|].
  destruct (fetch_all_agents_unsized_data example_scraper null_data_net
              null_data_body VNone eq_refl eq_refl I) as [Hraise Hboard].
  split; [exact Hraise | now apply Hboard].
Defined.

(** The last point of the series is the platform total. *)
Lemma fetch_global_metrics_example :
  fetch_global_metrics example_scraper gav_net "now" =
    Ok {| scrape_time := "now"; total_agdp_latest := VInt 25; total_agents := 0 |}.
Proof.
  refine (proj1 (fetch_global_metrics_latest example_scraper gav_net "now"
                   gav_body gav_top gav_result gav_series
                   eq_refl eq_refl eq_refl eq_refl)
            [obj [("value", VInt 10)]; obj [("value", VInt 25)]]
            (list_to_map [("value", VInt 25)]) eq_refl eq_refl).
Defined.

(** Fifty turns are not enough against an endless leaderboard. *)
Lemma pagination_unbounded_example :
  fetch_all_metrics_pages example_scraper endless_net 50 = None.
Proof.
  apply pagination_unbounded_on_full_pages.
  intros k _. exists hundred_records. split; [reflexivity | discriminate].
Defined.

(** One delay between the two page requests. *)
Lemma pagination_paces_example :
  exists r tr,
    fetch_all_metrics_pages example_scraper paged_net 2 = Some (r, tr) /\
    tr = [Fetched 1 100; Slept (3 # 2); Fetched 2 100] /\
    walk_delays tr = [3 # 2].
Proof.
  destruct (pagination_paces_between_pages example_scraper paged_net
              paged_batches 2 2) as (r & tr & Hrun & Htr & Hdelays & _).
  - discriminate.
  - intros k Hk. assert (k = 1 \/ k = 2) as [-> | ->] by lia; reflexivity.
  - intros k Hk. assert (k = 1) as -> by lia. discriminate.
  - reflexivity.
  - apply le_n.
  - exists r, tr. split; [exact Hrun|]. split; [exact Htr | exact Hdelays].
Defined.

(** A gross value above the cap is replaced by a smaller volume above the
    cap, and stays there when corrected again. *)
Lemma fix_capped_agdp_stable_example :
  _fix_capped_agdp (H := example_builtins) (VInt 300000000) (VInt 200000000)
    = Ok (Finite 200000000) /\
  _fix_capped_agdp (H := example_builtins) (VFloat 200000000) (VInt 200000000)
    = Ok (Finite 200000000).
Proof.
  split; [reflexivity|].
  apply (fix_capped_agdp_stable (H := example_builtins)
           (VInt 300000000) (VInt 200000000) _ _ eq_refl eq_refl).
Defined.

(** Two raw entries give two offerings; a requirement that is the text of
    the empty object is dropped. *)
Lemma parse_offerings_example :
  exists o1 o2,
    _parse_offerings (H := example_builtins) (VList [VDict swap_job; VDict report_job])
      = Ok [o1; o2] /\
    o_name o1 = VStr "Swap" /\ o_requirement o2 = "" /\
    o_requirement o2 <> "{}".
Proof.
  eexists _, _. split; [vm_compute; reflexivity|].
  split; [reflexivity|]. split; [reflexivity|].
  destruct (parse_offerings_shape (H := example_builtins)
              (VList [VDict swap_job; VDict report_job]) _ eq_refl)
    as (_ & _ & Hclean).
  apply Forall_cons in Hclean as [_ Hclean].
  apply Forall_cons in Hclean as [[Hreq _] _]. exact Hreq.
Defined.

(** The [priceV2] value of 5 is taken, not the legacy price of 1. *)
Lemma parse_offering_price_example :
  exists o,
    parse_offering (H := example_builtins) (VDict swap_job) = Ok o /\
    o_price o = VInt 5.
Proof.
  eexists. split; [vm_compute; reflexivity|].
  refine (proj1 (parse_offering_price (H := example_builtins) swap_job _ _)
            (list_to_map [("type", VStr "fixed"); ("value", VInt 5)]) (VInt 5) _ _);
    vm_compute; reflexivity.
Defined.

(** The offerings of a merged record come from the jobs of its detail
    record. *)
Lemma merge_offerings_example :
  exists a,
    _merge_agent (H := example_builtins) 1 named_list VNone jobs_detail = Ok a /\
    length (offerings a) = 2%nat.
Proof.
  eexists. split; [vm_compute; reflexivity|].
  refine (proj1 (merge_offerings_source (H := example_builtins) 1 named_list VNone
                   jobs_detail _ [VDict swap_job; VDict report_job] _ _));
    vm_compute; reflexivity.
Defined.

(** A flag that only the detail record sets is set in the merged record. *)
Lemma merge_flags_example :
  exists a,
    _merge_agent (H := example_builtins) 1 named_list VNone jobs_detail = Ok a /\
    truthy (has_graduated a) = true /\ truthy (is_virtual_agent a) = false.
Proof.
  eexists. split; [vm_compute; reflexivity|].
  destruct (merge_flags_either (H := example_builtins) 1 named_list VNone
              jobs_detail _ eq_refl) as [Hg Hv].
  split; [exact Hg | exact Hv].
Defined.

(** The name comes from the list record, the description from the detail
    record. *)
Lemma merge_identity_example :
  exists a,
    _merge_agent (H := example_builtins) 1 named_list VNone jobs_detail = Ok a /\
    name a = VStr "List name" /\ description a = VStr "From detail" /\
    wallet_address a = VStr "0xabc".
Proof.
  eexists. split; [vm_compute; reflexivity|].
  destruct (merge_identity_precedence (H := example_builtins) 1 named_list VNone
              jobs_detail _ eq_refl)
    as (Hname & _ & _ & _ & Hdesc & _ & Hwallet & _).
  split; [|split].
  - apply Hname; vm_compute; reflexivity.
  - apply Hdesc; vm_compute; reflexivity.
  - apply Hwallet; vm_compute; reflexivity.
Defined.

(** The always-online agent shows the sentinel text, never the year 2999. *)
Lemma merge_record_invariants_example :
  exists a,
    _merge_agent (H := example_builtins) 1 bare_list online_metrics VNone = Ok a /\
    startswith (last_active_at a) "2999" = false /\
    unique_active_wallets a = unique_buyers a.
Proof.
  eexists. split; [vm_compute; reflexivity|].
  destruct (merge_record_invariants (H := example_builtins) 1 bare_list
              online_metrics VNone _ eq_refl) as (Hw & _ & _ & _ & Hts).
  split; [exact Hts | exact Hw].
Defined.

(** Of two records with id 7, the second is kept. *)
Lemma index_by_id_last_wins_example :
  exists am,
    index_by_id [VDict first_seven; VDict second_seven] = Ok am /\
    am !! 7 = Some second_seven.
Proof.
  eexists. split; [reflexivity|].
  apply (index_by_id_last_wins [VDict first_seven] [] second_seven 7 _ eq_refl).
  - reflexivity.
  - intros d' Hd'. now apply elem_of_nil in Hd'.
Defined.

(** The metrics fetch of agent 1 raises, so its detail record is dropped;
    agent 2 keeps its detail record. *)
Lemma collect_results_example :
  fetch_agent_metrics example_scraper fanout_net 1 = Raise TypeError /\
  (collect_results (fetch_detail_throttled example_scraper fanout_net <$> [1; 2])).1
    !! 1 = None /\
  (collect_results (fetch_detail_throttled example_scraper fanout_net <$> [1; 2])).1
    !! 2 = Some detail_two.
Proof.
  split; [reflexivity|].
  destruct (collect_results_by_id example_scraper fanout_net [1; 2] 1)
    as (_ & _ & Hraise).
  destruct (collect_results_by_id example_scraper fanout_net [1; 2] 2)
    as (Hin & _ & _).
  split.
  - exact (proj1 (Hraise TypeError eq_refl)).
  - refine (proj1 (Hin _)). apply (bool_decide_unpack _). vm_compute. exact I.
Defined.

(** A dead network gives an empty result. *)
Lemma scrape_all_dead_network_example :
  0 <= concurrency example_scraper /\
  scrape_all (H := example_builtins) example_scraper (fun _ => dead_net) "now" 1 =
    Some (Ok ([], {| scrape_time := "now"; total_agdp_latest := VFloat 0;
                     total_agents := 0 |})).
Proof.
  split; [discriminate|].
  apply (scrape_all_dead_network (H := example_builtins)).
  - discriminate.
  - intros r k. reflexivity.
Defined.

(** The run of the tie scenario with a negative concurrency setting
    raises, and with none it does not return. *)
Lemma scrape_all_needs_permits_example :
  scrape_all (H := example_builtins) hasty_scraper tie_net "now" 1 =
    Some (Raise ValueError) /\
  scrape_all (H := example_builtins) stalled_scraper tie_net "now" 1 = None.
Proof.
  split.
  - refine (proj1 (scrape_all_needs_permits (H := example_builtins) hasty_scraper
                     tie_net "now" 1 _ _ _ _ _ _ _ eq_refl eq_refl eq_refl
                     eq_refl eq_refl eq_refl) _).
    reflexivity.
  - refine (proj2 (scrape_all_needs_permits (H := example_builtins) stalled_scraper
                     tie_net "now" 1 _ _ _ _ _ _ _ eq_refl eq_refl eq_refl
                     eq_refl eq_refl eq_refl) _ _).
    + reflexivity.
    + vm_compute. discriminate.
Defined.

(** Three ids on the list and the leaderboard: three records. *)
Lemma scrape_all_covers_ids_example :
  exists agents gm,
    scrape_all (H := example_builtins) example_scraper tie_net "now" 1 =
      Some (Ok (agents, gm)) /\
    total_agents gm = Z.of_nat (length agents) /\ length agents = 3%nat.
Proof.
  eexists _, _. split; [vm_compute; reflexivity|].
  split; [|reflexivity].
  refine (proj1 (scrape_all_covers_ids (H := example_builtins) example_scraper
                   tie_net "now" 1 _ _ _)).
  vm_compute. reflexivity.
Defined.

(** A partial section: the retry count is taken, the explicit null is
    kept, the delay defaults. *)
Lemma init_settings_example :
  __init__ (H := example_builtins) no_config_fs (VDict partial_config) =
    Ok {| config := VDict partial_config; raw_concurrency := VNone;
          raw_delay := VFloat (3 # 2); raw_max_retries := VInt 5 |}.
Proof.
  refine (proj1 (proj2 (init_settings (H := example_builtins) no_config_fs
                          partial_config eq_refl)) partial_section eq_refl).
Defined.

(** A null section raises. *)
Lemma init_rejects_example :
  __init__ (H := example_builtins) no_config_fs (VDict null_section_config) =
    Raise AttributeError.
Proof.
  refine (proj1 (init_rejects_non_dict (H := example_builtins) no_config_fs)
            null_section_config VNone eq_refl eq_refl _).
  intros sc. discriminate.
Defined.

(** An unknown field name gives the empty text, a known one a numbered
    line. *)
Lemma format_offerings_field_example :
  _format_offerings_field (H := example_builtins) (H0 := example_formatting)
    [swap_offering] "summary" = Ok "" /\
  _format_offerings_field (H := example_builtins) (H0 := example_formatting)
    [swap_offering] "names" = Ok "1. Swap".
Proof.
  split; [|reflexivity].
  refine (proj1 (proj2 (format_offerings_field_edges (H := example_builtins)
                          (H0 := example_formatting) [swap_offering] "summary"))
            _ _ _ _ _ _); discriminate.
Defined.

(** The row of the end-to-end scenario has 35 cells. *)
Lemma data_row_example :
  exists a,
    _merge_agent (H := example_builtins) 1 foo_list foo_metrics VNone = Ok a /\
    exists cells,
      data_row (H := example_builtins) (H0 := example_formatting) a = Ok cells /\
      length cells = 35%nat.
Proof.
  eexists. split; [vm_compute; reflexivity|].
  apply (data_row_built (H := example_builtins) (H0 := example_formatting) _ "无").
  vm_compute. reflexivity.
Defined.

(** * Chains, success rate and the ranking key *)

Section MergeMore.
Context `{Builtins}.

Lemma chain_names_inv (cs : list value) (names : list value) (strs : list string) :
  mapM (fun c => cd ← as_dict c; Ok (get_or cd "name" (VStr ""))) cs = Ok names ->
  mapM as_join_item names = Ok strs ->
  Forall2 (fun c n => exists cd, c = VDict cd /\ get_or cd "name" (VStr "") = VStr n)
    cs strs.
Proof.
  intros Hn Hs. apply mapM_Ok_Forall2 in Hn, Hs.
  revert strs Hs. induction Hn as [|c v cs vs Hc _ IH]; intros strs Hs.
  - inversion Hs. constructor.
  - inversion Hs as [|? s ? strs' Hv Hs']; subst. constructor; [|now apply IH].
    inv_bind Hc. injection Hc as <-.
    destruct c; try discriminate. injection Hx as ->.
    exists x. split; [reflexivity|].
    destruct (get_or x "name" (VStr "")); try discriminate. now injection Hv as ->.
Qed.

(** X25. The enabled chains of a merged record are the names of the
    chain objects of the list record (of the detail record when the list
    record has none), joined by ", ".  Every chain has to be an object
    whose name, when it has one, is a text: otherwise the merge raises. *)
Theorem merge_enabled_chains (rk : Z) (l : gmap string value) (m d : value)
    (a : AgentData) (cs : list value) :
  _merge_agent rk l m d = Ok a ->
  get l "enabledChains" or' get (record_of d) "enabledChains" or' VList [] = VList cs ->
  exists names,
    Forall2 (fun c n => exists cd, c = VDict cd /\ get_or cd "name" (VStr "") = VStr n)
      cs names /\
    enabled_chains a = join ", " names.
Proof.
  intros Hm Hcs. merge_open Hm.
  apply as_dict_record_of in Hx. subst x. rewrite Hcs in Hx0.
  unfold chains_text in Hx0. destruct cs as [|c cs].
  - simpl in Hx0. injection Hx0 as <-. exists []. split; [constructor | reflexivity].
  - cbn [truthy] in Hx0.
    apply bind_Ok in Hx0 as (items & Hitems & Hx0).
    apply bind_Ok in Hx0 as (names & Hnames & Hx0).
    apply bind_Ok in Hx0 as (strs & Hstrs & Hx0).
    injection Hx0 as <-. injection Hitems as <-.
    exists strs. split; [|reflexivity].
    now apply (chain_names_inv (c :: cs) names).
Qed.

(** X26. The success rate of a merged record is the first non-empty one
    of the metrics, detail and list records, read as a float and
    clamped: 0 below 0, 100 above 100, itself in between, and 0 when no
    record has one.  The clamp keeps every number within 0 and 100, and
    lets not-a-number through. *)
Theorem merge_success_rate_value (rk : Z) (l : gmap string value) (m d : value)
    (a : AgentData) :
  _merge_agent rk l m d = Ok a ->
  exists x,
    float (get (record_of m) "successRate" or' get (record_of d) "successRate"
           or' get_or l "successRate" (VInt 0) or' VInt 0) = Ok x /\
    (flt x 0%Q = true -> success_rate a = 0%Q) /\
    (flt 100%Q x = true -> success_rate a = 100%Q) /\
    (fle 0%Q x = true -> fle x 100%Q = true -> success_rate a = x) /\
    (is_nan x = true -> success_rate a = NaN) /\
    (is_nan x = false ->
       fle 0%Q (success_rate a) = true /\ fle (success_rate a) 100%Q = true) /\
    (record_of m !! "successRate" = None -> record_of d !! "successRate" = None ->
     l !! "successRate" = None -> success_rate a = 0%Q).
Proof.
  intros Hm. apply merge_success_rate_clamped in Hm as (x & Hx & ->).
  exists x. split; [assumption|].
  destruct (clamp_cases x) as (Hlo & Hhi & Hmid & Hnan).
  split; [exact Hlo|]. split; [exact Hhi|]. split; [exact Hmid|].
  split; [|split].
  - intros Hn. rewrite (Hnan Hn). now destruct x.
  - apply clamp_range.
  - intros Hmn Hdn Hln.
    rewrite (get_None _ _ Hmn), (get_None _ _ Hdn), (get_or_None _ _ _ Hln) in Hx.
    vm_compute in Hx. now injection Hx as <-.
Qed.

(** X27. The ranking key and the merged volume agree whenever the
    metrics record the merge reads has a non-zero volume: the agent's own
    metrics record, or the leaderboard record when the agent has none of
    its own. *)
Theorem rank_key_is_merged_volume (src : sources) (rk aid : Z) (a : AgentData)
    (v : value) :
  merge_entry src rk aid = Ok a ->
  truthy v = true ->
  (forall im, ind_metrics_map src !! aid = Some (VDict im) ->
     im !! "volume" = Some v ->
     volume a = v /\ volume_key src aid = Ok v) /\
  (forall lb, ind_metrics_map src !! aid = None ->
     metrics_map src !! aid = Some lb -> lb !! "volume" = Some v ->
     volume a = v /\ volume_key src aid = Ok v).
Proof.
  intros Hm Ht. unfold merge_entry in Hm. split.
  - intros im Him Hv. rewrite Him in Hm. simpl in Hm.
    assert (truthy (VDict im) = true) as Htim.
    { simpl. destruct (Nat.eqb_spec (size im) 0) as [E|]; [|reflexivity].
      apply map_size_empty_inv in E. subst im. now rewrite lookup_empty in Hv. }
    rewrite (por_truthy _ _ Htim) in Hm. merge_open Hm.
    apply as_dict_por_dict in Hx1. subst x1. split.
    + rewrite (get_Some _ _ _ Hv). now rewrite !(por_truthy v) by assumption.
    + unfold volume_key. rewrite Him. simpl.
      rewrite (get_or_Some _ _ _ _ Hv). now rewrite !(por_truthy v) by assumption.
  - intros lb Hnone Hlb Hv. rewrite Hnone, Hlb in Hm. simpl in Hm.
    rewrite por_falsy in Hm by reflexivity. merge_open Hm.
    apply as_dict_por_dict in Hx1. subst x1. split.
    + rewrite (get_Some _ _ _ Hv). now rewrite !(por_truthy v) by assumption.
    + unfold volume_key. rewrite Hnone, Hlb. simpl.
      rewrite get_or_None by apply lookup_empty.
      rewrite (get_or_Some _ _ _ _ Hv).
      rewrite ?(por_falsy (VInt 0)) by reflexivity.
      now rewrite !(por_truthy v) by assumption.
Qed.

End MergeMore.

(** Two chains, joined. *)
Lemma merge_enabled_chains_example :
  exists a names,
    _merge_agent (H := example_builtins) 1 chained_list VNone VNone = Ok a /\
    enabled_chains a = join ", " names /\
    enabled_chains a = "Base, Solana".
Proof.
  destruct (merge_enabled_chains (H := example_builtins) 1 chained_list VNone VNone
              _ [obj [("name", VStr "Base")]; obj [("name", VStr "Solana")]]
              eq_refl eq_refl) as (names & _ & Hjoin).
  eexists _, names. split; [reflexivity|]. split; [exact Hjoin | reflexivity].
Defined.

(** A raw success rate of 150 becomes 100. *)
Lemma merge_success_rate_value_example :
  exists a,
    _merge_agent (H := example_builtins) 1 foo_list foo_metrics VNone = Ok a /\
    success_rate a = 100%Q.
Proof.
  eexists. split; [vm_compute; reflexivity|].
  destruct (merge_success_rate_value (H := example_builtins) 1 foo_list foo_metrics
              VNone _ eq_refl) as (x & Hx & _ & Hhi & _).
  apply Hhi. vm_compute in Hx. injection Hx as <-. reflexivity.
Defined.

(** The agent's own volume of 800 is both its ranking key and its merged
    volume; the leaderboard's 300 is not read. *)
Lemma rank_key_is_merged_volume_example :
  exists a,
    merge_entry (H := example_builtins) own_sources 1 7 = Ok a /\
    volume a = VInt 800 /\
    volume_key own_sources 7 = Ok (VInt 800).
Proof.
  eexists. split; [vm_compute; reflexivity|].
  refine (proj1 (rank_key_is_merged_volume (H := example_builtins) own_sources 1 7
                   _ (VInt 800) _ eq_refl) own_metrics _ _);
    vm_compute; reflexivity.
Defined.
